(** * app-clima: the weather lookup of [App.js]

    A shallow embedding of the two functions of the [App] component that
    carry logic: [fetchWeather] (geocoding request, forecast request, the
    four pieces of component state) and [getWeatherDetails] (WMO code to
    icon, label and colour).

    JavaScript values are embedded as they are at run time: strings are
    sequences of UTF-16 code units, numbers are the exact rational value of
    a double together with NaN and the two infinities, and a decoded JSON
    body is a tree of such values.  Conversions of such values to strings
    and to numbers can throw, and do so here.

    [fetchWeather] is embedded twice: run from its call to its end, and cut
    at its [await]s, so that invocations that overlap in time can be
    followed.  The two agree on an invocation that is left alone. *)

From Stdlib Require Import ZArith NArith QArith Qround List String Ascii Bool Lia Lqa.
Import ListNotations.

Set Implicit Arguments.
Close Scope Q_scope.

(** ** Strings *)

(** A JavaScript string: its UTF-16 code units. *)
Definition jsstring := list N.

Fixpoint bytes_of (s : string) : list N :=
  match s with
  | EmptyString => []
  | String a r => N_of_ascii a :: bytes_of r
  end.

(** The literals of [App.js] are written in this file as UTF-8 strings;
    every character of theirs is in the Basic Multilingual Plane, so one to
    three octets give one code unit. *)
Fixpoint utf16_of_utf8 (bs : list N) : jsstring :=
  match bs with
  | [] => []
  | b0 :: r0 =>
      if (b0 <? 128)%N then b0 :: utf16_of_utf8 r0
      else
        match r0 with
        | [] => []
        | b1 :: r1 =>
            if (b0 <? 224)%N
            then ((b0 mod 32) * 64 + b1 mod 64)%N :: utf16_of_utf8 r1
            else
              match r1 with
              | [] => []
              | b2 :: r2 =>
                  ((b0 mod 16) * 4096 + (b1 mod 64) * 64 + b2 mod 64)%N
                    :: utf16_of_utf8 r2
              end
        end
  end.

Definition lit (s : string) : jsstring := utf16_of_utf8 (bytes_of s).

Fixpoint jsstring_eqb (a b : jsstring) : bool :=
  match a, b with
  | [], [] => true
  | x :: a', y :: b' => (x =? y)%N && jsstring_eqb a' b'
  | _, _ => false
  end.

Fixpoint starts_with (p s : jsstring) : bool :=
  match p, s with
  | [], _ => true
  | x :: p', y :: s' => (x =? y)%N && starts_with p' s'
  | _ :: _, [] => false
  end.

(** [String.prototype.trim]: the code units it strips are WhiteSpace and
    LineTerminator of ECMA-262. *)
Definition is_white_space (c : N) : bool :=
  ((9 <=? c) && (c <=? 13) || (c =? 32) || (c =? 160) || (c =? 0x1680)
   || (0x2000 <=? c) && (c <=? 0x200A)
   || (c =? 0x2028) || (c =? 0x2029) || (c =? 0x202F) || (c =? 0x205F)
   || (c =? 0x3000) || (c =? 0xFEFF))%N.

Fixpoint trim_start (s : jsstring) : jsstring :=
  match s with
  | [] => []
  | c :: r => if is_white_space c then trim_start r else s
  end.

Definition trim_end (s : jsstring) : jsstring := rev (trim_start (rev s)).

Definition trim (s : jsstring) : jsstring := trim_end (trim_start s).

(** ** Errors *)

(** What a [throw] carries in this program: an [Error] object; the handler
    of [fetchWeather] reads its [message] only. *)
Record JsError := mkError { err_name : jsstring; message : jsstring }.

Inductive Completion (A : Type) :=
| Normal (a : A)
| Throw (e : JsError).
Arguments Normal {A} a.
Arguments Throw {A} e.

(** Go on with the value of a completion, or with its throw. *)
Definition and_then {A B} (r : Completion A) (k : A -> Completion B) : Completion B :=
  match r with
  | Normal a => k a
  | Throw e => Throw e
  end.

(** ** Numbers and values *)

Inductive number :=
| NaN
| Infinity (negative : bool)
| Finite (q : Q).

Definition int (z : Z) : number := Finite (inject_Z z).

(** [Math.round]: the nearest integer, a tie going towards plus infinity. *)
Definition Math_round (x : number) : number :=
  match x with
  | Finite q => int (Qfloor (q + (1 # 2))%Q)
  | _ => x
  end.

#[local] Set Warnings "-register-all".
Inductive JsVal :=
| JUndefined
| JNull
| JBool (b : bool)
| JNum (n : number)
| JStr (s : jsstring)
| JArr (elems : list JsVal)
| JObj (fields : list (jsstring * JsVal)).

Definition number_truthy (n : number) : bool :=
  match n with
  | NaN => false
  | Infinity _ => true
  | Finite q => negb (Qeq_bool q 0%Q)
  end.

(** ToBoolean, as [!x] and [x || y] use it. *)
Definition to_boolean (v : JsVal) : bool :=
  match v with
  | JUndefined | JNull => false
  | JBool b => b
  | JNum n => number_truthy n
  | JStr s => match s with [] => false | _ => true end
  | JArr _ | JObj _ => true
  end.

(** [v === k] for a number literal [k]. *)
Definition strict_equals_number (v : JsVal) (k : Z) : bool :=
  match v with
  | JNum (Finite q) => Qeq_bool q (inject_Z k)
  | _ => false
  end.

(** A canonical array index: decimal digits, no leading zero. *)
Fixpoint digits_value (acc : nat) (s : jsstring) : option nat :=
  match s with
  | [] => Some acc
  | c :: r =>
      if ((48 <=? c) && (c <=? 57))%N
      then digits_value (10 * acc + N.to_nat (c - 48)%N) r
      else None
  end.

Definition array_index (key : jsstring) : option nat :=
  match key with
  | [] => None
  | [48%N] => Some 0
  | 48%N :: _ => None
  | _ => digits_value 0 key
  end.

Fixpoint lookup_field (key : jsstring) (fields : list (jsstring * JsVal)) : JsVal :=
  match fields with
  | [] => JUndefined
  | (k, v) :: r => if jsstring_eqb k key then v else lookup_field key r
  end.

(** The part of the JavaScript engine the program relies on and this
    development leaves open: the two conversions between numbers and
    strings, and the texts of the errors the engine itself raises. *)
Class Engine := {
  NumberToString : number -> jsstring;
  StringToNumber : jsstring -> number;
  cannot_read_message : JsVal -> jsstring -> jsstring;
  cannot_destructure_message : JsVal -> jsstring;
  cannot_convert_message : JsVal -> jsstring;
  uri_malformed_message : jsstring
}.

Definition TypeError (msg : jsstring) : JsError := mkError (lit "TypeError") msg.
Definition URIError (msg : jsstring) : JsError := mkError (lit "URIError") msg.

(** [new Error(msg)] *)
Definition Error (msg : jsstring) : JsError := mkError (lit "Error") msg.

Section Values.
Context {E : Engine}.

Fixpoint join_with (sep : jsstring) (parts : list jsstring) : jsstring :=
  match parts with
  | [] => []
  | [p] => p
  | p :: r => p ++ sep ++ join_with sep r
  end.

(** Whether an object has a property of its own under [key]. *)
Definition has_own_property (key : jsstring) (fields : list (jsstring * JsVal)) : bool :=
  existsb (fun kv => jsstring_eqb (fst kv) key) fields.

(** Converting an object to a primitive calls its [valueOf] and its
    [toString].  For a decoded JSON object the inherited [valueOf] gives
    the object back, and the inherited [toString] gives a string; a
    [toString] property of its own (which JSON can only make a value, never
    a function) hides the inherited one, and the conversion then throws a
    TypeError.  An array is converted by joining the conversions of its
    elements, from the left, [undefined] and [null] apart.  This finds the
    object at which the conversion of [v] throws, if there is one. *)
Fixpoint first_unconvertible (v : JsVal) : option JsVal :=
  match v with
  | JObj fields =>
      if has_own_property (lit "toString") fields then Some v else None
  | JArr elems =>
      (fix among (l : list JsVal) : option JsVal :=
         match l with
         | [] => None
         | e :: r =>
             match first_unconvertible e with
             | Some o => Some o
             | None => among r
             end
         end) elems
  | _ => None
  end.

(** The string a value converts to, when the conversion does not throw:
    an array is joined with commas, [undefined] and [null] elements giving
    the empty string, and an object with the inherited [toString] gives
    '[object Object]'. *)
Fixpoint to_string (v : JsVal) : jsstring :=
  match v with
  | JUndefined => lit "undefined"
  | JNull => lit "null"
  | JBool true => lit "true"
  | JBool false => lit "false"
  | JNum n => NumberToString n
  | JStr s => s
  | JArr elems =>
      join_with (lit ",")
        (map (fun e => match e with
                       | JUndefined | JNull => []
                       | _ => to_string e
                       end) elems)
  | JObj _ => lit "[object Object]"
  end.

(** The number a value converts to, when the conversion does not throw. *)
Definition to_number (v : JsVal) : number :=
  match v with
  | JUndefined => NaN
  | JNull => int 0
  | JBool true => int 1
  | JBool false => int 0
  | JNum n => n
  | JStr s => StringToNumber s
  | JArr _ | JObj _ => StringToNumber (to_string v)
  end.

(** ToString, as a template literal applies it to [${v}]. *)
Definition ToString (v : JsVal) : Completion jsstring :=
  match first_unconvertible v with
  | Some o => Throw (TypeError (cannot_convert_message o))
  | None => Normal (to_string v)
  end.

(** ToNumber, as [Math.round] and the relational operators apply it. *)
Definition ToNumber (v : JsVal) : Completion number :=
  match first_unconvertible v with
  | Some o => Throw (TypeError (cannot_convert_message o))
  | None => Normal (to_number v)
  end.

Definition number_ge (n : number) (k : Z) : bool :=
  match n with
  | NaN => false
  | Infinity negative => negb negative
  | Finite q => Qle_bool (inject_Z k) q
  end.

Definition number_le (n : number) (k : Z) : bool :=
  match n with
  | NaN => false
  | Infinity negative => negative
  | Finite q => Qle_bool q (inject_Z k)
  end.

(** [v >= k] and [v <= k] for a number literal [k]: the value is
    converted to a number, which can throw, and any comparison with NaN is
    false. *)
Definition ge_number (v : JsVal) (k : Z) : Completion bool :=
  match ToNumber v with
  | Normal n => Normal (number_ge n k)
  | Throw e => Throw e
  end.

Definition le_number (v : JsVal) (k : Z) : Completion bool :=
  match ToNumber v with
  | Normal n => Normal (number_le n k)
  | Throw e => Throw e
  end.

(** [v >= lo && v <= hi]: the second comparison is evaluated only when the
    first is true. *)
Definition between (v : JsVal) (lo hi : Z) : Completion bool :=
  match ge_number v lo with
  | Normal true => le_number v hi
  | Normal false => Normal false
  | Throw e => Throw e
  end.

(** [v.key] and [v[key]]: reading a property of [undefined] or [null]
    throws a TypeError; a primitive has none of the properties the
    program reads, but for a string its [length] and its code units. *)
Definition get (v : JsVal) (key : jsstring) : Completion JsVal :=
  match v with
  | JUndefined | JNull => Throw (TypeError (cannot_read_message v key))
  | JBool _ | JNum _ => Normal JUndefined
  | JStr s =>
      if jsstring_eqb key (lit "length")
      then Normal (JNum (int (Z.of_nat (List.length s))))
      else match array_index key with
           | Some i => Normal (match nth_error s i with
                               | Some c => JStr [c]
                               | None => JUndefined
                               end)
           | None => Normal JUndefined
           end
  | JArr elems =>
      if jsstring_eqb key (lit "length")
      then Normal (JNum (int (Z.of_nat (List.length elems))))
      else match array_index key with
           | Some i => Normal (nth i elems JUndefined)
           | None => Normal JUndefined
           end
  | JObj fields => Normal (lookup_field key fields)
  end.

(** ** [encodeURIComponent] *)

Definition is_uri_unreserved (c : N) : bool :=
  ((65 <=? c) && (c <=? 90) || (97 <=? c) && (c <=? 122)
   || (48 <=? c) && (c <=? 57)
   || (c =? 45) || (c =? 95) || (c =? 46) || (c =? 33) || (c =? 126)
   || (c =? 42) || (c =? 39) || (c =? 40) || (c =? 41))%N.

Definition is_lead_surrogate (c : N) : bool := ((0xD800 <=? c) && (c <=? 0xDBFF))%N.
Definition is_trail_surrogate (c : N) : bool := ((0xDC00 <=? c) && (c <=? 0xDFFF))%N.

Definition hex_digit (n : N) : N := (if n <? 10 then 48 + n else 55 + n)%N.

Definition percent (octet : N) : jsstring :=
  [37%N; hex_digit (octet / 16); hex_digit (octet mod 16)].

Definition utf8_octets (cp : N) : list N :=
  (if cp <? 0x80 then [cp]
   else if cp <? 0x800 then [0xC0 + cp / 64; 0x80 + cp mod 64]
   else if cp <? 0x10000
        then [0xE0 + cp / 4096; 0x80 + (cp / 64) mod 64; 0x80 + cp mod 64]
        else [0xF0 + cp / 262144; 0x80 + (cp / 4096) mod 64;
              0x80 + (cp / 64) mod 64; 0x80 + cp mod 64])%N.

Definition escape (cp : N) : jsstring := flat_map percent (utf8_octets cp).

Definition prepend (p : jsstring) (r : Completion jsstring) : Completion jsstring :=
  match r with
  | Normal s => Normal (p ++ s)
  | Throw e => Throw e
  end.

(** An unpaired surrogate makes the function throw a URIError. *)
Fixpoint encodeURIComponent (s : jsstring) : Completion jsstring :=
  match s with
  | [] => Normal []
  | c :: r =>
      if is_uri_unreserved c then prepend [c] (encodeURIComponent r)
      else if is_trail_surrogate c then Throw (URIError uri_malformed_message)
      else if is_lead_surrogate c then
        match r with
        | [] => Throw (URIError uri_malformed_message)
        | d :: r' =>
            if is_trail_surrogate d
            then prepend
                   (escape (0x10000 + (c - 0xD800) * 0x400 + (d - 0xDC00))%N)
                   (encodeURIComponent r')
            else Throw (URIError uri_malformed_message)
        end
      else prepend (escape c) (encodeURIComponent r)
  end.

End Values.

(** ** The component: state, effects and the monad of an invocation *)

(** The object [setWeatherData] stores on success. *)
Module Reading.
Record t := make {
  city : JsVal;
  region : JsVal;
  country : JsVal;
  temp : number;
  code : JsVal
}.
End Reading.

(** The four [useState] cells of [App]; [null] is [None]. *)
Record AppState := mkState {
  city : jsstring;
  weatherData : option Reading.t;
  loading : bool;
  error : option jsstring
}.

Definition initial : AppState := mkState [] None false None.

(** What an invocation does to the outside, in order. *)
Inductive Effect :=
| KeyboardDismiss
| Fetch (url : jsstring).

Record Machine := mkMachine { ui : AppState; effects : list Effect }.

(** A [Response]: all the program does with it is [await r.json()]. *)
Record Response := mkResponse { json : Completion JsVal }.

(** The network as one invocation sees it: the outcome of [await fetch(url)]. *)
Definition Network := jsstring -> Completion Response.

Definition M (A : Type) : Type := Machine -> Completion A * Machine.

Definition ret {A} (a : A) : M A := fun m => (Normal a, m).

Definition bind {A B} (c : M A) (k : A -> M B) : M B :=
  fun m =>
    match c m with
    | (Normal a, m') => k a m'
    | (Throw e, m') => (Throw e, m')
    end.

Definition throw {A} (e : JsError) : M A := fun m => (Throw e, m).

Definition lift {A} (r : Completion A) : M A := fun m => (r, m).

(** [try { body } catch (err) { handler } finally { final }] *)
Definition try_catch_finally {A} (body : M A) (handler : JsError -> M A)
    (final : M unit) : M A :=
  fun m =>
    let '(r1, m1) := body m in
    let '(r2, m2) := match r1 with
                     | Normal a => (Normal a, m1)
                     | Throw e => handler e m1
                     end in
    match final m2 with
    | (Normal _, m3) => (r2, m3)
    | (Throw e, m3) => (Throw e, m3)
    end.

Declare Scope js_scope.
Delimit Scope js_scope with js.
Notation "x <- c ;; k" := (bind c (fun x => k))
  (at level 61, c at next level, right associativity) : js_scope.
Notation "c ;; k" := (bind c (fun _ => k))
  (at level 61, right associativity) : js_scope.
Notation "'try' b 'catch' h 'finally' f" := (try_catch_finally b h f)
  (at level 60, b at level 9, h at level 9, f at level 9) : js_scope.

Definition emit (e : Effect) : M unit :=
  fun m => (Normal tt, mkMachine (ui m) (effects m ++ [e])).

Definition modify (f : AppState -> AppState) : M unit :=
  fun m => (Normal tt, mkMachine (f (ui m)) (effects m)).

Definition read {A} (f : AppState -> A) : M A := fun m => (Normal (f (ui m)), m).

Definition setCity (v : jsstring) : M unit :=
  modify (fun s => mkState v (weatherData s) (loading s) (error s)).
Definition setWeatherData (v : option Reading.t) : M unit :=
  modify (fun s => mkState (city s) v (loading s) (error s)).
Definition setLoading (v : bool) : M unit :=
  modify (fun s => mkState (city s) (weatherData s) v (error s)).
Definition setError (v : option jsstring) : M unit :=
  modify (fun s => mkState (city s) (weatherData s) (loading s) v).

Definition Keyboard_dismiss : M unit := emit KeyboardDismiss.

Definition geocoding_url (name : jsstring) : jsstring :=
  lit "https://geocoding-api.open-meteo.com/v1/search?name=" ++ name
    ++ lit "&count=1&language=pt&format=json".

Definition forecast_url (latitude longitude : jsstring) : jsstring :=
  lit "https://api.open-meteo.com/v1/forecast?latitude=" ++ latitude
    ++ lit "&longitude=" ++ longitude
    ++ lit "&current=temperature_2m,weather_code&timezone=auto".

(** [err.message || 'Erro ao buscar dados.'] *)
Definition message_or_default (err : JsError) : jsstring :=
  if to_boolean (JStr (message err)) then message err
  else lit "Erro ao buscar dados.".

Section Component.
Context {E : Engine}.
Variable net : Network.

Local Open Scope js_scope.

(** [await fetch(url)] *)
Definition fetch (url : jsstring) : M Response :=
  emit (Fetch url) ;; lift (net url).

(** The test of line 38: [!geoData.results || geoData.results.length === 0] *)
Definition no_results (geoData : JsVal) : M bool :=
  results <- lift (get geoData (lit "results")) ;;
  if negb (to_boolean results) then ret true
  else
    results <- lift (get geoData (lit "results")) ;;
    len <- lift (get results (lit "length")) ;;
    ret (strict_equals_number len 0).

(** A destructuring pattern first requires its source not to be
    [undefined] or [null]. *)
Definition require_object_coercible (v : JsVal) : M unit :=
  match v with
  | JUndefined | JNull => throw (TypeError (cannot_destructure_message v))
  | _ => ret tt
  end.

(** The block between [try] and [catch], lines 31 to 56. *)
Definition try_block (city : jsstring) : M unit :=
  query <- lift (encodeURIComponent city) ;;
  geoResponse <- fetch (geocoding_url query) ;;
  geoData <- lift (json geoResponse) ;;
  none <- no_results geoData ;;
  if none then throw (Error (lit "Cidade não encontrada."))
  else
    results <- lift (get geoData (lit "results")) ;;
    first <- lift (get results (lit "0")) ;;
    require_object_coercible first ;;
    latitude <- lift (get first (lit "latitude")) ;;
    longitude <- lift (get first (lit "longitude")) ;;
    name <- lift (get first (lit "name")) ;;
    admin1 <- lift (get first (lit "admin1")) ;;
    country_code <- lift (get first (lit "country_code")) ;;
    latitude_text <- lift (ToString latitude) ;;
    longitude_text <- lift (ToString longitude) ;;
    weatherResponse <- fetch (forecast_url latitude_text longitude_text) ;;
    weatherDataResult <- lift (json weatherResponse) ;;
    current <- lift (get weatherDataResult (lit "current")) ;;
    temperature_2m <- lift (get current (lit "temperature_2m")) ;;
    temperature <- lift (ToNumber temperature_2m) ;;
    current <- lift (get weatherDataResult (lit "current")) ;;
    weather_code <- lift (get current (lit "weather_code")) ;;
    setWeatherData
      (Some (Reading.make name admin1 country_code
               (Math_round temperature) weather_code)).

Definition fetchWeather : M unit :=
  city <- read city ;;
  if negb (to_boolean (JStr (trim city))) then ret tt
  else
    Keyboard_dismiss ;;
    setLoading true ;;
    setError None ;;
    setWeatherData None ;;
    try (try_block city)
    catch (fun err => setError (Some (message_or_default err)))
    finally (setLoading false).

End Component.

(** ** [getWeatherDetails] *)

Record Presentation := mkPresentation {
  icon : jsstring;
  label : jsstring;
  color : jsstring
}.

Section Classify.
Context {E : Engine}.

(** [if (test) return p;] followed by the rest of the function. *)
Definition if_return (test : Completion bool) (p : Presentation)
    (rest : Completion Presentation) : Completion Presentation :=
  match test with
  | Throw e => Throw e
  | Normal true => Normal p
  | Normal false => rest
  end.

Definition getWeatherDetails (code : JsVal) : Completion Presentation :=
  if strict_equals_number code 0
  then Normal (mkPresentation (lit "weather-sunny") (lit "Céu Limpo") (lit "#FDB813"))
  else
  if_return (between code 1 3)
    (mkPresentation (lit "weather-partly-cloudy") (lit "Parcialmente Nublado")
       (lit "#A0A0A0")) (
  if_return (between code 45 48)
    (mkPresentation (lit "weather-fog") (lit "Nevoeiro") (lit "#787878")) (
  if_return (between code 51 67)
    (mkPresentation (lit "weather-rainy") (lit "Chuva") (lit "#4299E1")) (
  if_return (between code 71 77)
    (mkPresentation (lit "weather-snowy") (lit "Neve") (lit "#90CDF4")) (
  if_return (between code 80 82)
    (mkPresentation (lit "weather-pouring") (lit "Pancadas de Chuva")
       (lit "#2B6CB0")) (
  if_return (between code 95 99)
    (mkPresentation (lit "weather-lightning") (lit "Tempestade") (lit "#805AD5")) (
  Normal (mkPresentation (lit "weather-sunny") (lit "Céu Limpo") (lit "#FDB813")))))))).

(** The function at an integer code. *)
Definition classify (code : Z) : Completion Presentation :=
  getWeatherDetails (JNum (int code)).

End Classify.

(** *** The range table, as the specification words it

    Seven inclusive ranges in priority order, each with its presentation;
    the first range that contains the code wins, and a code in none of
    them gets the presentation of code 0. *)

Definition clear_sky : Presentation :=
  mkPresentation (lit "weather-sunny") (lit "Céu Limpo") (lit "#FDB813").
Definition partly_cloudy : Presentation :=
  mkPresentation (lit "weather-partly-cloudy") (lit "Parcialmente Nublado")
    (lit "#A0A0A0").
Definition fog : Presentation :=
  mkPresentation (lit "weather-fog") (lit "Nevoeiro") (lit "#787878").
Definition rain : Presentation :=
  mkPresentation (lit "weather-rainy") (lit "Chuva") (lit "#4299E1").
Definition snow : Presentation :=
  mkPresentation (lit "weather-snowy") (lit "Neve") (lit "#90CDF4").
Definition showers : Presentation :=
  mkPresentation (lit "weather-pouring") (lit "Pancadas de Chuva") (lit "#2B6CB0").
Definition thunderstorm : Presentation :=
  mkPresentation (lit "weather-lightning") (lit "Tempestade") (lit "#805AD5").

Record Range := mkRange { lo : Z; hi : Z; shown : Presentation }.

Definition range_table : list Range :=
  [ mkRange 0 0 clear_sky;
    mkRange 1 3 partly_cloudy;
    mkRange 45 48 fog;
    mkRange 51 67 rain;
    mkRange 71 77 snow;
    mkRange 80 82 showers;
    mkRange 95 99 thunderstorm ].

Definition in_range (code : Z) (r : Range) : bool :=
  ((lo r <=? code) && (code <=? hi r))%Z.

(** The ranges of the table that contain the code. *)
Definition matching (code : Z) : list Range := filter (in_range code) range_table.

Definition first_match (code : Z) : Presentation :=
  match matching code with
  | r :: _ => shown r
  | [] => clear_sky
  end.

(** The chain of tests of [getWeatherDetails], read at an integer. *)
Definition chain (z : Z) : Presentation :=
  (if z =? 0 then clear_sky
   else if (1 <=? z) && (z <=? 3) then partly_cloudy
   else if (45 <=? z) && (z <=? 48) then fog
   else if (51 <=? z) && (z <=? 67) then rain
   else if (71 <=? z) && (z <=? 77) then snow
   else if (80 <=? z) && (z <=? 82) then showers
   else if (95 <=? z) && (z <=? 99) then thunderstorm
   else clear_sky)%Z.

(** The same chain, read at a number. *)
Definition chain_at (n : number) : Presentation :=
  if number_ge n 1 && number_le n 3 then partly_cloudy
  else if number_ge n 45 && number_le n 48 then fog
  else if number_ge n 51 && number_le n 67 then rain
  else if number_ge n 71 && number_le n 77 then snow
  else if number_ge n 80 && number_le n 82 then showers
  else if number_ge n 95 && number_le n 99 then thunderstorm
  else clear_sky.

(** ** Running an invocation *)

(** A query with nothing but white space in it (the empty one too). *)
Definition blank (q : jsstring) : bool := forallb is_white_space q.

Definition nullish (v : JsVal) : bool :=
  match v with
  | JUndefined | JNull => true
  | _ => false
  end.

(** The machine once lines 25 to 28 have run. *)
Definition started (m : Machine) : Machine :=
  mkMachine (mkState (city (ui m)) None true None) (effects m ++ [KeyboardDismiss]).

(** The machine once [catch] and [finally] have run, the [try] block
    having completed as [r]. *)
Definition finished (r : Completion unit) (m : Machine) : Machine :=
  let s := ui m in
  let err := match r with
             | Normal _ => error s
             | Throw e => Some (message_or_default e)
             end in
  mkMachine (mkState (city s) (weatherData s) false err) (effects m).

(** The requests of a run, in order. *)
Definition requests (m : Machine) : list jsstring :=
  flat_map (fun e => match e with Fetch u => [u] | KeyboardDismiss => [] end)
    (effects m).

(** A machine with no history, holding the given state. *)
Definition fresh (s : AppState) : Machine := mkMachine s [].


(** What holds of the completion and final machine of a computation. *)
Definition wp {A} (c : M A) (Q : Completion A -> Machine -> Prop) (m : Machine) : Prop :=
  Q (fst (c m)) (snd (c m)).

Section Run.
Context {E : Engine}.

(** The machine an invocation of [fetchWeather] leaves behind. *)
Definition after (net : Network) (m : Machine) : Machine := snd (fetchWeather net m).

(** How the returned promise settles. *)
Definition settles (net : Network) (m : Machine) : Completion unit :=
  fst (fetchWeather net m).

(** How the [try] block of an invocation completes: normally when the
    lookup succeeds, by a throw when it fails. *)
Definition attempt (net : Network) (m : Machine) : Completion unit :=
  fst (try_block net (city (ui m)) (started m)).

End Run.

(** ** Lookups in flight

    [fetchWeather] is an [async] function: at each of its four [await]s
    (lines 33, 36, 45 and 48) it hands control back, and whatever the user
    does next runs before it goes on.  Here the function is cut at its
    [await]s, so that several invocations can be in flight at once. *)

(** Where an invocation waits, with the variables it still needs. *)
Inductive Pending :=
| AwaitGeocoding (url : jsstring)
| AwaitGeocodingBody (geoResponse : Response)
| AwaitForecast (name admin1 country_code : JsVal) (url : jsstring)
| AwaitForecastBody (name admin1 country_code : JsVal) (weatherResponse : Response).

Section Stretches.
Context {E : Engine}.
Variable net : Network.

Local Open Scope js_scope.

(** The [try] block up to its first [await]: the request is sent. *)
Definition to_first_await (city : jsstring) : M (option Pending) :=
  query <- lift (encodeURIComponent city) ;;
  emit (Fetch (geocoding_url query)) ;;
  ret (Some (AwaitGeocoding (geocoding_url query))).

(** The [try] block from one [await], the awaited promise having settled
    as the network says, to the next [await] or to the end of the block. *)
Definition from_await (p : Pending) : M (option Pending) :=
  match p with
  | AwaitGeocoding url =>
      geoResponse <- lift (net url) ;;
      ret (Some (AwaitGeocodingBody geoResponse))
  | AwaitGeocodingBody geoResponse =>
      geoData <- lift (json geoResponse) ;;
      none <- no_results geoData ;;
      if none then throw (Error (lit "Cidade não encontrada."))
      else
        results <- lift (get geoData (lit "results")) ;;
        first <- lift (get results (lit "0")) ;;
        require_object_coercible first ;;
        latitude <- lift (get first (lit "latitude")) ;;
        longitude <- lift (get first (lit "longitude")) ;;
        name <- lift (get first (lit "name")) ;;
        admin1 <- lift (get first (lit "admin1")) ;;
        country_code <- lift (get first (lit "country_code")) ;;
        latitude_text <- lift (ToString latitude) ;;
        longitude_text <- lift (ToString longitude) ;;
        emit (Fetch (forecast_url latitude_text longitude_text)) ;;
        ret (Some (AwaitForecast name admin1 country_code
                     (forecast_url latitude_text longitude_text)))
  | AwaitForecast name admin1 country_code url =>
      weatherResponse <- lift (net url) ;;
      ret (Some (AwaitForecastBody name admin1 country_code weatherResponse))
  | AwaitForecastBody name admin1 country_code weatherResponse =>
      weatherDataResult <- lift (json weatherResponse) ;;
      current <- lift (get weatherDataResult (lit "current")) ;;
      temperature_2m <- lift (get current (lit "temperature_2m")) ;;
      temperature <- lift (ToNumber temperature_2m) ;;
      current <- lift (get weatherDataResult (lit "current")) ;;
      weather_code <- lift (get current (lit "weather_code")) ;;
      setWeatherData
        (Some (Reading.make name admin1 country_code
                 (Math_round temperature) weather_code)) ;;
      ret None
  end.

(** A stretch of the [try] block, inside the [try] statement: [catch] and
    [finally] run when the stretch ends the block, not when it stops at an
    [await]. *)
Definition in_try (stretch : M (option Pending)) : M (option Pending) :=
  fun m =>
    match stretch m with
    | (Normal (Some p), m1) => (Normal (Some p), m1)
    | (Normal None, m1) => (setLoading false ;; ret None) m1
    | (Throw err, m1) =>
        (setError (Some (message_or_default err)) ;;
         setLoading false ;;
         ret None) m1
    end.

(** A call of [fetchWeather], up to its first [await]. *)
Definition begin : M (option Pending) :=
  city <- read city ;;
  if negb (to_boolean (JStr (trim city))) then ret None
  else
    Keyboard_dismiss ;;
    setLoading true ;;
    setError None ;;
    setWeatherData None ;;
    in_try (to_first_await city).

(** An invocation goes on from the [await] it waits at. *)
Definition resume (p : Pending) : M (option Pending) := in_try (from_await p).

End Stretches.

(** The component with the invocations in flight, each with the network
    that answers it. *)
Record Session := mkSession {
  machine : Machine;
  in_flight : list (Network * Pending)
}.

(** What happens to the component: the text field is edited (line 94), is
    submitted from the keyboard (line 95), the search button is pressed
    (line 100), or the promise that the [i]-th invocation in flight waits
    for settles. *)
Inductive Event :=
| ChangeText (text : jsstring)
| SubmitEditing (net : Network)
| Press (net : Network)
| Settled (i : nat).

Section Sessions.
Context {E : Engine}.

(** [fetchWeather()] is called. *)
Definition enter (net : Network) (ss : Session) : Session :=
  match begin (machine ss) with
  | (Normal (Some p), m) => mkSession m (in_flight ss ++ [(net, p)])
  | (_, m) => mkSession m (in_flight ss)
  end.

Definition go_on (i : nat) (ss : Session) : Session :=
  match nth_error (in_flight ss) i with
  | None => ss
  | Some (net, p) =>
      match resume net p (machine ss) with
      | (Normal (Some p'), m) =>
          mkSession m (firstn i (in_flight ss) ++ (net, p')
                         :: skipn (S i) (in_flight ss))
      | (_, m) =>
          mkSession m (firstn i (in_flight ss) ++ skipn (S i) (in_flight ss))
      end
  end.

(** The text field calls [fetchWeather] whenever it is submitted; the
    button is [disabled={loading}] (line 101) and calls it only when no
    lookup is loading. *)
Definition step (ss : Session) (ev : Event) : Session :=
  match ev with
  | ChangeText text => mkSession (snd (setCity text (machine ss))) (in_flight ss)
  | SubmitEditing net => enter net ss
  | Press net => if loading (ui (machine ss)) then ss else enter net ss
  | Settled i => go_on i ss
  end.

Definition run (events : list Event) (ss : Session) : Session :=
  fold_left step events ss.

(** A lookup started from the keyboard and left to run to its end with
    nothing in between. *)
Definition alone (net : Network) : list Event :=
  [SubmitEditing net; Settled 0; Settled 0; Settled 0; Settled 0].

(** The component as it is mounted. *)
Definition opened : Session := mkSession (fresh initial) [].

(** The states the component can be in when no lookup is in flight,
    whatever came before: edits, lookups from the keyboard and from the
    button, one at a time or overlapping. *)
Definition reachable (s : AppState) : Prop :=
  exists events,
    in_flight (run events opened) = [] /\ ui (machine (run events opened)) = s.

End Sessions.

(** ** An engine and a network to run examples on

    Message texts in the style of Hermes; a number prints as the decimal of
    its floor, and no string converts to a number.  The theorems
    below hold for every engine; this one only makes the examples run. *)

Fixpoint decimal_digits (fuel : nat) (n : N) (acc : jsstring) : jsstring :=
  match fuel with
  | O => acc
  | S fuel' =>
      let acc' := (48 + n mod 10)%N :: acc in
      if (n <? 10)%N then acc' else decimal_digits fuel' (n / 10)%N acc'
  end.

Definition decimal (z : Z) : jsstring :=
  let digits := decimal_digits 400 (Z.to_N (Z.abs z)) [] in
  if (z <? 0)%Z then 45%N :: digits else digits.

Definition example_engine : Engine := {|
  NumberToString := fun n =>
    match n with
    | NaN => lit "NaN"
    | Infinity true => lit "-Infinity"
    | Infinity false => lit "Infinity"
    | Finite q => decimal (Qnum q / Zpos (Qden q))
    end;
  StringToNumber := fun _ => NaN;
  cannot_read_message := fun v key =>
    lit "Cannot read property '" ++ key ++ lit "' of "
      ++ match v with JNull => lit "null" | _ => lit "undefined" end;
  cannot_destructure_message := fun v =>
    lit "Cannot destructure "
      ++ match v with JNull => lit "null" | _ => lit "undefined" end;
  cannot_convert_message := fun _ => lit "Cannot convert object to primitive value";
  uri_malformed_message := lit "Malformed encodeURI input"
|}.

(** The state with [text] in the field and nothing else yet. *)
Definition typed (text : jsstring) : AppState := mkState text None false None.

Definition geocoding_api : jsstring := lit "https://geocoding-api.open-meteo.com/".

(** A network that answers the geocoding host one way and any other host
    another way. *)
Definition answers (geocoding forecast : Completion Response) : Network :=
  fun url => if starts_with geocoding_api url then geocoding else forecast.

(** A response whose body decodes to [v]. *)
Definition body (v : JsVal) : Completion Response := Normal (mkResponse (Normal v)).

Definition sao_paulo_place : list (jsstring * JsVal) :=
  [(lit "latitude", JNum (Finite (-47 # 2)));
   (lit "longitude", JNum (Finite (-233 # 5)));
   (lit "name", JStr (lit "São Paulo"));
   (lit "admin1", JStr (lit "SP"));
   (lit "country_code", JStr (lit "BR"))].

Definition sao_paulo_geocoding : JsVal :=
  JObj [(lit "results", JArr [JObj sao_paulo_place])].

Definition sao_paulo_forecast : JsVal :=
  JObj [(lit "current",
         JObj [(lit "temperature_2m", JNum (Finite (107 # 5)));
               (lit "weather_code", JNum (int 3))])].

Definition sao_paulo_reading : Reading.t :=
  Reading.make (JStr (lit "São Paulo")) (JStr (lit "SP")) (JStr (lit "BR"))
    (int 21) (JNum (int 3)).

Definition sao_paulo_network : Network :=
  answers (body sao_paulo_geocoding) (body sao_paulo_forecast).

(** Geocoding finds nothing: [{results: []}]. *)
Definition no_match_network : Network :=
  answers (body (JObj [(lit "results", JArr [])])) (body sao_paulo_forecast).

(** Every request is rejected, with a message or with an empty one. *)
Definition offline : Network :=
  fun _ => Throw (TypeError (lit "Network request failed")).
Definition offline_silent : Network := fun _ => Throw (TypeError []).

(** The forecast decodes to [{}], and to [{current: {}}]. *)
Definition no_current_network : Network :=
  answers (body sao_paulo_geocoding) (body (JObj [])).
Definition empty_current_network : Network :=
  answers (body sao_paulo_geocoding) (body (JObj [(lit "current", JObj [])])).

(** One network for two cities: 'sao paulo' is found, 'Atlantis' is not. *)
Definition two_cities_network : Network :=
  fun url =>
    if jsstring_eqb url (geocoding_url (lit "Atlantis"))
    then body (JObj [(lit "results", JArr [])])
    else sao_paulo_network url.

(** 'sao paulo' is submitted from the keyboard; before its geocoding
    request is answered 'Atlantis' is typed and submitted; the second
    lookup is answered first, then the first one. *)
Definition overlapping : list Event :=
  [ChangeText (lit "sao paulo"); SubmitEditing two_cities_network;
   ChangeText (lit "Atlantis"); SubmitEditing two_cities_network;
   Settled 1; Settled 1;
   Settled 0; Settled 0; Settled 0; Settled 0].

(** The same, the second lookup asked for with the button. *)
Definition by_the_button : list Event :=
  [ChangeText (lit "sao paulo"); SubmitEditing two_cities_network;
   ChangeText (lit "Atlantis"); Press two_cities_network;
   Settled 1; Settled 1;
   Settled 0; Settled 0; Settled 0; Settled 0].

(** ** What [App] renders

    The element tree [App] returns (lines 78 to 156), by the parts of it
    that depend on the state: the text field, the search button, and the
    three blocks that are there or not.  Text children are kept as the
    values the JSX interpolates, in order; what React then does with the
    tree (it refuses a child that is an object) is outside the function and
    is not embedded. *)

Inductive ButtonContent :=
| ActivityIndicator
| MagnifyIcon.

Record ResultCard := mkCard {
  locationText : list JsVal;
  weatherIcon_name : jsstring;
  weatherIcon_color : jsstring;
  temperature : list JsVal;
  description : jsstring
}.

Record Screen := mkScreen {
  input_value : jsstring;
  button_disabled : bool;
  button_content : ButtonContent;
  errorContainer : option jsstring;
  resultCard : option ResultCard;
  placeholderContainer : bool
}.

Section Render.
Context {E : Engine}.

(** [{weatherData && (...)}], lines 119 to 146.  The three calls of
    [getWeatherDetails] are made in the order of the source, and a throw of
    any of them is a throw of the render. *)
Definition render_card (weatherData : option Reading.t) : Completion (option ResultCard) :=
  match weatherData with
  | None => Normal None
  | Some w =>
      and_then (getWeatherDetails (Reading.code w)) (fun for_name =>
      and_then (getWeatherDetails (Reading.code w)) (fun for_color =>
      and_then (getWeatherDetails (Reading.code w)) (fun for_label =>
      Normal (Some (mkCard
                      [Reading.city w; JStr (lit ", "); Reading.country w]
                      (icon for_name)
                      (color for_color)
                      [JNum (Reading.temp w); JStr (lit "°C")]
                      (label for_label))))))
  end.

(** [{error && (...)}], lines 112 to 116: [null] and the empty string are
    falsy and give no container. *)
Definition render_error (error : option jsstring) : option jsstring :=
  match error with
  | None => None
  | Some msg => if to_boolean (JStr msg) then Some msg else None
  end.

Definition render (s : AppState) : Completion Screen :=
  and_then (render_card (weatherData s)) (fun card =>
  Normal (mkScreen
            (city s)
            (loading s)
            (if loading s then ActivityIndicator else MagnifyIcon)
            (render_error (error s))
            card
            (match weatherData s with None => true | Some _ => false end
             && negb (loading s)))).

End Render.

(** ** Shapes of strings and requests *)

Definition is_surrogate (c : N) : bool := ((0xD800 <=? c) && (c <=? 0xDFFF))%N.

(** A code unit [encodeURIComponent] can produce: an unreserved character
    or the percent sign. *)
Definition is_uri_safe (c : N) : bool := is_uri_unreserved c || (c =? 37)%N.

Definition forecast_api : jsstring := lit "https://api.open-meteo.com/v1/forecast?".

(** Every element is a code unit: below 2^16. *)
Definition code_units (s : jsstring) : bool := forallb (fun c => (c <? 65536)%N) s.

(** A number with no fractional part; NaN and the infinities have none. *)
Definition integral (n : number) : Prop :=
  match n with
  | Finite q => exists z, q = inject_Z z
  | _ => True
  end.


(** * Properties *)

Arguments lit : simpl never.
Arguments trim : simpl never.
Arguments encodeURIComponent : simpl never.
Arguments get : simpl never.
Arguments to_string : simpl never.
Arguments geocoding_url : simpl never.
Arguments forecast_url : simpl never.
Arguments try_block : simpl never.

(** ** Comparisons at integer codes *)

Lemma Qle_bool_inject_Z (a b : Z) : Qle_bool (inject_Z a) (inject_Z b) = (a <=? b)%Z.
Proof.
  unfold Qle_bool, inject_Z; cbn [Qnum Qden].
  now rewrite !Z.mul_1_r.
Qed.

Lemma Qeq_bool_inject_Z (a b : Z) : Qeq_bool (inject_Z a) (inject_Z b) = (a =? b)%Z.
Proof.
  unfold Qeq_bool, inject_Z; cbn [Qnum Qden].
  rewrite !Z.mul_1_r.
  destruct (Z.eqb_spec a b) as [->|Hne].
  - destruct (Z.eq_dec b b); [reflexivity | contradiction].
  - destruct (Z.eq_dec a b); [contradiction | reflexivity].
Qed.

Section ClassifyFacts.
Context {E : Engine}.

(** Once the code has converted to a number, the function is the chain of
    tests at that number. *)
Lemma getWeatherDetails_converted (v : JsVal) (n : number) :
  ToNumber v = Normal n ->
  getWeatherDetails v
  = Normal (if strict_equals_number v 0 then clear_sky else chain_at n).
Proof.
  intros H.
  unfold getWeatherDetails, if_return, between, ge_number, le_number, chain_at.
  rewrite H.
  destruct (strict_equals_number v 0); [reflexivity|].
  repeat (match goal with
          | |- context [number_ge n ?k] => destruct (number_ge n k)
          | |- context [number_le n ?k] => destruct (number_le n k)
          end; cbn [andb]; cbv beta iota);
    reflexivity.
Qed.

(** When the conversion throws, so does the function. *)
Lemma getWeatherDetails_thrown (v : JsVal) (e : JsError) :
  ToNumber v = Throw e -> getWeatherDetails v = Throw e.
Proof.
  intros H.
  assert (Hs : strict_equals_number v 0 = false)
    by (destruct v; try reflexivity; discriminate H).
  unfold getWeatherDetails, if_return, between, ge_number.
  now rewrite Hs, H.
Qed.

Lemma chain_at_in_table (n : number) :
  In (chain_at n) [clear_sky; partly_cloudy; fog; rain; snow; showers; thunderstorm].
Proof.
  unfold chain_at.
  repeat match goal with
         | |- context [if ?c then _ else _] => destruct c
         end;
    cbn [In]; auto 10.
Qed.

Lemma chain_at_int (z : Z) : chain_at (int z) = chain z.
Proof.
  unfold chain_at, chain, number_ge, number_le, int.
  rewrite !Qle_bool_inject_Z.
  destruct (Z.eqb_spec z 0) as [->|_]; reflexivity.
Qed.

Lemma classify_chain (z : Z) : classify z = Normal (chain z).
Proof.
  unfold classify.
  rewrite (@getWeatherDetails_converted (JNum (int z)) (int z) eq_refl).
  rewrite chain_at_int.
  unfold strict_equals_number, int. rewrite Qeq_bool_inject_Z.
  unfold chain. destruct (z =? 0)%Z; reflexivity.
Qed.

Lemma getWeatherDetails_number (n : number) :
  exists p, getWeatherDetails (JNum n) = Normal p /\
            In p [clear_sky; partly_cloudy; fog; rain; snow; showers; thunderstorm].
Proof.
  rewrite (@getWeatherDetails_converted (JNum n) n eq_refl).
  eexists. split; [reflexivity|].
  destruct (strict_equals_number (JNum n) 0);
    [now left | apply chain_at_in_table].
Qed.

End ClassifyFacts.

(** Every comparison of a goal against a literal is settled by [lia] once
    the interval of the code is known. *)
Ltac settle_comparisons :=
  repeat match goal with
         | |- context [(?a <=? ?b)%Z] =>
             first [ replace (a <=? b)%Z with true
                       by (symmetry; apply Z.leb_le; lia)
                   | replace (a <=? b)%Z with false
                       by (symmetry; apply Z.leb_gt; lia) ]
         | |- context [(?a =? ?b)%Z] =>
             first [ replace (a =? b)%Z with true
                       by (symmetry; apply Z.eqb_eq; lia)
                   | replace (a =? b)%Z with false
                       by (symmetry; apply Z.eqb_neq; lia) ]
         end.

(** The intervals the seven ranges cut the integers into. *)
Lemma code_intervals (z : Z) :
  (z < 0 \/ z = 0 \/ 1 <= z <= 3 \/ 4 <= z <= 44 \/ 45 <= z <= 48
   \/ 49 <= z <= 50 \/ 51 <= z <= 67 \/ 68 <= z <= 70 \/ 71 <= z <= 77
   \/ 78 <= z <= 79 \/ 80 <= z <= 82 \/ 83 <= z <= 94 \/ 95 <= z <= 99
   \/ 99 < z)%Z.
Proof. lia. Qed.

(** In each interval the chain of tests and the table agree: no range
    contains the code and the chain falls through, or one range does and
    the chain stops at it. *)
Lemma matching_cases (z : Z) :
  (matching z = [] /\ chain z = clear_sky)
  \/ exists r, matching z = [r] /\ chain z = shown r.
Proof.
  unfold chain, matching, range_table, in_range.
  cbn [filter lo hi shown].
  pose proof (code_intervals z) as Hz.
  repeat (destruct Hz as [Hz | Hz]); settle_comparisons; cbn [andb];
    first [ left; split; reflexivity
          | right; eexists; split; reflexivity ].
Qed.

Lemma chain_first_match (z : Z) : chain z = first_match z.
Proof.
  unfold first_match.
  destruct (matching_cases z) as [[-> ->] | (r & -> & ->)]; reflexivity.
Qed.

Lemma matching_at_most_one (z : Z) : (List.length (matching z) <= 1)%nat.
Proof.
  destruct (matching_cases z) as [[-> _] | (r & -> & _)]; cbn; lia.
Qed.

Lemma matching_outside (z : Z) : (z < 0 \/ 99 < z)%Z -> matching z = [].
Proof.
  intros Hz. unfold matching, range_table, in_range.
  cbn [filter lo hi shown].
  destruct Hz; settle_comparisons; reflexivity.
Qed.

Lemma ranges_disjoint (z : Z) (r1 r2 : Range) :
  In r1 range_table -> In r2 range_table ->
  in_range z r1 = true -> in_range z r2 = true -> r1 = r2.
Proof.
  unfold range_table, in_range. cbn [In]. intros H1 H2 Hin1 Hin2.
  repeat match goal with
         | H : _ \/ _ |- _ => destruct H as [H | H]
         | H : False |- _ => destruct H
         end;
    subst; try reflexivity; cbn [lo hi] in *;
    apply andb_true_iff in Hin1, Hin2;
    rewrite !Z.leb_le in Hin1, Hin2; lia.
Qed.

(** ** The code-to-presentation mapping *)

Section ClassifyClaims.
Context {E : Engine}.

(** C1.  At every number, and so at every integer code,
    [getWeatherDetails] returns one of the seven presentations and does
    not throw.  A code that none of the ranges contains (any negative code
    and any code above 99 among them) gets the presentation of code 0, so
    that classify(0), classify(-5) and classify(100) are all the clear-sky
    presentation: icon 'weather-sunny', label 'Céu Limpo', colour
    '#FDB813'. *)
Theorem getWeatherDetails_total_default (code : Z) :
  (forall n : number,
      exists p, getWeatherDetails (JNum n) = Normal p /\
                In p [clear_sky; partly_cloudy; fog; rain; snow; showers;
                      thunderstorm]) /\
  (exists p, classify code = Normal p /\
             In p [clear_sky; partly_cloudy; fog; rain; snow; showers;
                   thunderstorm]) /\
  (matching code = [] -> classify code = classify 0) /\
  ((code < 0 \/ 99 < code)%Z -> classify code = classify 0) /\
  classify 0 = classify (-5) /\
  classify (-5) = classify 100 /\
  classify 100
  = Normal (mkPresentation (lit "weather-sunny") (lit "Céu Limpo") (lit "#FDB813")).
Proof.
  assert (Hnone : forall z, matching z = [] -> classify z = Normal clear_sky).
  { intros z Hz. rewrite classify_chain, chain_first_match.
    unfold first_match. now rewrite Hz. }
  assert (H0 : classify 0 = Normal clear_sky) by apply classify_chain.
  assert (H5 : classify (-5) = Normal clear_sky)
    by (apply Hnone, matching_outside; lia).
  assert (H100 : classify 100 = Normal clear_sky)
    by (apply Hnone, matching_outside; lia).
  repeat apply conj.
  - apply getWeatherDetails_number.
  - apply getWeatherDetails_number.
  - intros Hz. now rewrite H0, (Hnone code Hz).
  - intros Hz. rewrite H0. now apply Hnone, matching_outside.
  - now rewrite H0, H5.
  - now rewrite H5, H100.
  - exact H100.
Qed.

(** C2, as the code has it.  For every integer code in [0,99] at most one
    of the seven ranges (exact 0; 1-3; 45-48; 51-67; 71-77; 80-82; 95-99)
    contains the code, no two ranges of the table overlap, the result is
    the presentation of the first range of the table that contains the
    code and the default when none does, and equal codes give equal
    results. *)
Theorem range_table_first_match (code : Z) :
  (0 <= code <= 99)%Z ->
  (List.length (matching code) <= 1)%nat /\
  (forall r1 r2, In r1 range_table -> In r2 range_table ->
                 in_range code r1 = true -> in_range code r2 = true -> r1 = r2) /\
  classify code = Normal (first_match code) /\
  (matching code = [] -> classify code = Normal clear_sky) /\
  (forall code', code' = code -> classify code' = classify code).
Proof.
  intros _. repeat apply conj.
  - apply matching_at_most_one.
  - apply ranges_disjoint.
  - now rewrite classify_chain, chain_first_match.
  - intros Hz. rewrite classify_chain, chain_first_match.
    unfold first_match. now rewrite Hz.
  - now intros code' ->.
Qed.

End ClassifyClaims.

(** C1 at code 100, which no range contains. *)
Lemma getWeatherDetails_total_default_witness :
  matching 100 = [] /\
  classify (E := example_engine) 100 = classify (E := example_engine) 0.
Proof.
  split.
  - vm_compute. reflexivity.
  - apply (proj1 (proj2 (proj2
             (getWeatherDetails_total_default (E := example_engine) 100)))).
    vm_compute. reflexivity.
Defined.

(** C2 as it is worded fails: code 4 lies in [0,99] and no range of the
    table contains it, so it is not the case that exactly one range
    applies to every code of [0,99]. *)
Lemma exactly_one_range_fails :
  ~ (forall code : Z, (0 <= code <= 99)%Z -> List.length (matching code) = 1%nat).
Proof.
  intros H. specialize (H 4%Z ltac:(lia)).
  vm_compute in H. discriminate H.
Qed.

(** The amended C2 at code 46, in the fog range. *)
Lemma range_table_first_match_witness :
  (0 <= 46 <= 99)%Z /\
  classify (E := example_engine) 46 = Normal (first_match 46).
Proof.
  split.
  - lia.
  - refine (proj1 (proj2 (proj2
             (range_table_first_match (E := example_engine) (code := 46) _)))).
    lia.
Defined.

(** ** Blank queries and [trim] *)

Lemma trim_start_nil (s : jsstring) : trim_start s = [] <-> blank s = true.
Proof.
  unfold blank.
  induction s as [|c r IH]; cbn; [tauto|].
  destruct (is_white_space c); cbn; [exact IH|].
  split; discriminate.
Qed.

Lemma blank_rev (s : jsstring) : blank (rev s) = blank s.
Proof.
  unfold blank.
  induction s as [|c r IH]; [reflexivity|].
  cbn [rev]. rewrite forallb_app, IH. cbn. rewrite andb_true_r. apply andb_comm.
Qed.

Lemma trim_start_keeps (s : jsstring) : blank s = false -> blank (trim_start s) = false.
Proof.
  unfold blank.
  induction s as [|c r IH]; cbn; [discriminate|].
  destruct (is_white_space c) eqn:Hc; cbn; [exact IH|].
  now rewrite Hc.
Qed.

(** The test of line 22 succeeds exactly on the blank queries. *)
Lemma trim_nil (s : jsstring) : trim s = [] <-> blank s = true.
Proof.
  unfold trim, trim_end. split.
  - intros H. destruct (blank s) eqn:Hb; [reflexivity|exfalso].
    apply trim_start_keeps in Hb.
    assert (Hr : trim_start (rev (trim_start s)) = []).
    { destruct (trim_start (rev (trim_start s))); [reflexivity|].
      apply (f_equal (@List.length N)) in H. rewrite length_rev in H.
      discriminate. }
    apply trim_start_nil in Hr. rewrite blank_rev in Hr. congruence.
  - intros H. apply trim_start_nil in H. rewrite H. reflexivity.
Qed.

Lemma trim_falsy (s : jsstring) : negb (to_boolean (JStr (trim s))) = blank s.
Proof.
  destruct (blank s) eqn:Hb.
  - apply trim_nil in Hb. now rewrite Hb.
  - destruct (trim s) eqn:Ht; [|reflexivity].
    apply trim_nil in Ht. congruence.
Qed.

(** ** The message the handler stores *)

Lemma message_or_default_cases (e : JsError) :
  message_or_default e
  = match message e with
    | [] => lit "Erro ao buscar dados."
    | _ => message e
    end.
Proof. unfold message_or_default. destruct (message e); reflexivity. Qed.

Lemma not_found_message :
  message_or_default (Error (lit "Cidade não encontrada."))
  = lit "Cidade não encontrada.".
Proof. vm_compute. reflexivity. Qed.

(** ** Reading properties *)

Section GetFacts.
Context {E : Engine}.

Lemma get_length (l : list JsVal) :
  get (JArr l) (lit "length") = Normal (JNum (int (Z.of_nat (List.length l)))).
Proof.
  unfold get.
  replace (jsstring_eqb (lit "length") (lit "length")) with true
    by (vm_compute; reflexivity).
  reflexivity.
Qed.

Lemma get_first (x : JsVal) (l : list JsVal) : get (JArr (x :: l)) (lit "0") = Normal x.
Proof.
  unfold get.
  replace (jsstring_eqb (lit "0") (lit "length")) with false
    by (vm_compute; reflexivity).
  replace (array_index (lit "0")) with (Some 0%nat) by (vm_compute; reflexivity).
  reflexivity.
Qed.

Lemma get_nullish (v : JsVal) (key : jsstring) :
  nullish v = true -> get v key = Throw (TypeError (cannot_read_message v key)).
Proof. destruct v; try discriminate; reflexivity. Qed.

(** Reading a property of anything but [undefined] and [null] never throws. *)
Lemma get_defined (v : JsVal) (key : jsstring) :
  nullish v = false -> exists x, get v key = Normal x.
Proof.
  destruct v; try discriminate; intros _; unfold get.
  1, 2, 5: eexists; reflexivity.
  all: destruct (jsstring_eqb key (lit "length")); [eexists; reflexivity|].
  all: destruct (array_index key); eexists; reflexivity.
Qed.

Lemma length_not_zero (n : nat) :
  strict_equals_number (JNum (int (Z.of_nat (S n)))) 0 = false.
Proof.
  unfold strict_equals_number, int. rewrite Qeq_bool_inject_Z.
  apply Z.eqb_neq. lia.
Qed.

(** ** Conversions *)

Lemma ToString_normal (v : JsVal) (s : jsstring) :
  ToString v = Normal s -> s = to_string v.
Proof.
  unfold ToString. destruct (first_unconvertible v); [discriminate|].
  now intros [= <-].
Qed.

Lemma ToNumber_normal (v : JsVal) (n : number) :
  ToNumber v = Normal n -> n = to_number v.
Proof.
  unfold ToNumber. destruct (first_unconvertible v); [discriminate|].
  now intros [= <-].
Qed.

Lemma ToString_convertible (v : JsVal) :
  first_unconvertible v = None -> ToString v = Normal (to_string v).
Proof. unfold ToString. now intros ->. Qed.

Lemma ToNumber_convertible (v : JsVal) :
  first_unconvertible v = None -> ToNumber v = Normal (to_number v).
Proof. unfold ToNumber. now intros ->. Qed.

Lemma ToNumber_throws (v : JsVal) (e : JsError) :
  ToNumber v = Throw e ->
  exists o, first_unconvertible v = Some o /\
            e = TypeError (cannot_convert_message o).
Proof.
  unfold ToNumber. destruct (first_unconvertible v) as [o|]; [|discriminate].
  intros [= <-]. now exists o.
Qed.

End GetFacts.

(** ** Rules for running a computation *)

Section Logic.
Context {E : Engine}.
Variable net : Network.

Lemma wp_ret A (a : A) Q m : Q (Normal a) m -> wp (ret a) Q m.
Proof. exact (fun H => H). Qed.

Lemma wp_throw A e (Q : Completion A -> Machine -> Prop) m :
  Q (Throw e) m -> wp (throw e) Q m.
Proof. exact (fun H => H). Qed.

Lemma wp_lift A (r : Completion A) Q m : Q r m -> wp (lift r) Q m.
Proof. exact (fun H => H). Qed.

Lemma wp_bind A B (c : M A) (k : A -> M B) Q m :
  wp c (fun r m' => match r with
                    | Normal a => wp (k a) Q m'
                    | Throw e => Q (Throw e) m'
                    end) m ->
  wp (bind c k) Q m.
Proof.
  unfold wp, bind. destruct (c m) as [[a|e] m']; cbn; auto.
Qed.

Lemma wp_modify f Q m :
  Q (Normal tt) (mkMachine (f (ui m)) (effects m)) -> wp (modify f) Q m.
Proof. exact (fun H => H). Qed.

Lemma wp_fetch url Q m :
  Q (net url) (mkMachine (ui m) (effects m ++ [Fetch url])) ->
  wp (fetch net url) Q m.
Proof. exact (fun H => H). Qed.

Lemma wp_no_results geoData Q m :
  match get geoData (lit "results") with
  | Normal results =>
      if negb (to_boolean results) then Q (Normal true) m
      else match get results (lit "length") with
           | Normal len => Q (Normal (strict_equals_number len 0)) m
           | Throw e => Q (Throw e) m
           end
  | Throw e => Q (Throw e) m
  end ->
  wp (no_results geoData) Q m.
Proof.
  unfold wp, no_results, bind, lift, ret.
  destruct (get geoData (lit "results")) as [results|e]; cbn; auto.
  destruct (negb (to_boolean results)); cbn; auto.
  destruct (get results (lit "length")); cbn; auto.
Qed.

Lemma wp_require_object_coercible v Q m :
  (if nullish v
   then Q (Throw (TypeError (cannot_destructure_message v))) m
   else Q (Normal tt) m) ->
  wp (require_object_coercible v) Q m.
Proof. destruct v; exact (fun H => H). Qed.

(** A property of a whole invocation, from one of the computation. *)
Lemma wp_invocation Q m :
  wp (fetchWeather net) Q m -> Q (settles net m) (after net m).
Proof. exact (fun H => H). Qed.

Lemma wp_block Q c m :
  wp (try_block net c) Q m ->
  Q (fst (try_block net c m)) (snd (try_block net c m)).
Proof. exact (fun H => H). Qed.

Lemma wp_fetchWeather_blank Q m :
  blank (city (ui m)) = true -> Q (Normal tt) m -> wp (fetchWeather net) Q m.
Proof.
  intros Hb HQ. unfold wp, fetchWeather, bind, read.
  rewrite trim_falsy, Hb. exact HQ.
Qed.

Lemma wp_fetchWeather Q m :
  blank (city (ui m)) = false ->
  wp (try_block net (city (ui m)))
     (fun r m1 => Q (Normal tt) (finished r m1)) (started m) ->
  wp (fetchWeather net) Q m.
Proof.
  intros Hb. unfold wp, fetchWeather, bind, read.
  rewrite trim_falsy, Hb. cbn.
  unfold try_catch_finally, started.
  destruct (try_block net (city (ui m)) _) as [[[]|e] m1]; cbn; auto.
Qed.

End Logic.

Ltac norm :=
  cbv beta iota;
  cbn [ui effects city weatherData loading error fresh started json].

(** Settle the outcome [r] of a step: known already, given by a hypothesis,
    or else one case for each way it can go. *)
Ltac settle r :=
  lazymatch r with
  | Normal _ => idtac
  | Throw _ => idtac
  | true => idtac
  | false => idtac
  | get (JObj ?fields) ?key => change r with (Normal (lookup_field key fields))
  | _ => lazymatch goal with
         | H : r = _ |- _ => rewrite H
         | _ => lazymatch r with
                | ToString ?v =>
                    first [ rewrite (ToString_convertible v) by reflexivity
                          | destruct r eqn:? ]
                | ToNumber ?v =>
                    first [ rewrite (ToNumber_convertible v) by reflexivity
                          | destruct r eqn:? ]
                | _ => destruct r eqn:?
                end
         end
  end; norm.

Ltac wp_step :=
  lazymatch goal with
  | |- wp (bind _ _) _ _ => apply wp_bind
  | |- wp (ret _) _ _ => apply wp_ret; norm
  | |- wp (throw _) _ _ => apply wp_throw; norm
  | |- wp (lift ?r) _ _ => apply wp_lift; settle r
  | |- wp (fetch ?n ?u) _ _ => apply wp_fetch; settle (n u)
  | |- wp (setWeatherData _) _ _ => apply wp_modify; norm
  | |- wp (no_results _) _ _ => apply wp_no_results
  | |- wp (require_object_coercible ?v) _ _ => apply wp_require_object_coercible
  | |- wp (if ?b then _ else _) _ _ => settle b
  | |- match ?r with Normal _ => _ | Throw _ => _ end => settle r
  | |- (if ?b then _ else _) => settle b
  end.

Ltac wp_run := norm; repeat wp_step.

(** The same on closed data: what can be computed is computed. *)
Ltac evaluate t :=
  let v := eval vm_compute in t in
  replace t with v by (vm_compute; reflexivity).

Ltac wp_eval :=
  norm;
  repeat (repeat match goal with
                 | |- context [get ?v ?k] => evaluate (get v k)
                 | |- wp (if ?b then _ else _) _ _ => progress evaluate b
                 | |- (if ?b then _ else _) => progress evaluate b
                 end;
          wp_step).

(** At the end of a path: the final machine, spelled out. *)
Ltac leaf := unfold finished, requests; norm; cbn [app flat_map].

(** Enter an invocation of [fetchWeather] on a query that is not blank. *)
Ltac invocation net m Hb :=
  cbv zeta;
  pattern (settles net m), (after net m);
  apply wp_invocation;
  apply wp_fetchWeather; [exact Hb|];
  unfold try_block.

(** ** What an invocation does to the state *)

Section Invocation.
Context {E : Engine}.

(** The [try] block writes one cell, and only when it completes. *)
Lemma try_block_frame net c m :
  wp (try_block net c)
     (fun r m' =>
        city (ui m') = city (ui m) /\ loading (ui m') = loading (ui m) /\
        error (ui m') = error (ui m) /\
        match r with
        | Normal _ => weatherData (ui m') <> None
        | Throw _ => weatherData (ui m') = weatherData (ui m)
        end) m.
Proof.
  unfold try_block. wp_run.
  all: cbn; repeat apply conj; try reflexivity; discriminate.
Qed.

Lemma fetchWeather_blank net m :
  blank (city (ui m)) = true -> fetchWeather net m = (Normal tt, m).
Proof.
  intros Hb.
  unfold fetchWeather, bind, read.
  rewrite trim_falsy, Hb. reflexivity.
Qed.

Lemma after_blank net m : blank (city (ui m)) = true -> after net m = m.
Proof. intros Hb. unfold after. now rewrite fetchWeather_blank. Qed.

Lemma after_lookup net m :
  blank (city (ui m)) = false ->
  after net m
  = finished (attempt net m) (snd (try_block net (city (ui m)) (started m))).
Proof.
  intros Hb.
  pattern (after net m).
  apply (wp_invocation net (fun _ m' => _ m')).
  apply wp_fetchWeather; [exact Hb|].
  reflexivity.
Qed.

(** The state a lookup leaves, by the way its [try] block completed. *)
Lemma lookup_outcome net m :
  blank (city (ui m)) = false ->
  ui (after net m)
  = match attempt net m with
    | Normal _ =>
        mkState (city (ui m)) (weatherData (ui (after net m))) false None
    | Throw e =>
        mkState (city (ui m)) None false (Some (message_or_default e))
    end
  /\ (forall u, attempt net m = Normal u -> weatherData (ui (after net m)) <> None).
Proof.
  intros Hb. rewrite (after_lookup net m Hb).
  pose proof (try_block_frame net (city (ui m)) (started m)) as Hf.
  unfold wp in Hf. unfold attempt.
  destruct (try_block net (city (ui m)) (started m)) as [r m1].
  cbn [fst snd] in *. destruct Hf as (Hc & Hl & He & Hw).
  unfold finished. cbn [ui started city weatherData loading error] in *.
  destruct r as [u|e]; split; cbn [weatherData]; congruence.
Qed.



(** The handler catches whatever is thrown: the promise always resolves. *)
Lemma settles_normal net m : settles net m = Normal tt.
Proof.
  destruct (blank (city (ui m))) eqn:Hb.
  - unfold settles. now rewrite fetchWeather_blank.
  - pattern (settles net m).
    apply (wp_invocation net (fun r _ => _ r)).
    apply wp_fetchWeather; [exact Hb|].
    reflexivity.
Qed.

End Invocation.

(** ** Lookups in flight *)

(** The value a computation is waiting for: the scrutinee at the head of
    its term. *)
Ltac head_scrutinee t :=
  lazymatch t with
  | match ?x with Normal _ => _ | Throw _ => _ end => head_scrutinee x
  | match ?x with pair _ _ => _ end => head_scrutinee x
  | match ?x with Some _ => _ | None => _ end => head_scrutinee x
  | match ?x with mkMachine _ _ => _ end => head_scrutinee x
  | match ?x with mkState _ _ _ _ => _ end => head_scrutinee x
  | match ?x with JUndefined => _ | JNull => _ | JBool _ => _ | JNum _ => _
                | JStr _ => _ | JArr _ => _ | JObj _ => _ end => head_scrutinee x
  | if ?x then _ else _ => head_scrutinee x
  | (if ?x then _ else _) _ => head_scrutinee x
  | (match ?x with JUndefined => _ | JNull => _ | JBool _ => _ | JNum _ => _
                 | JStr _ => _ | JArr _ => _ | JObj _ => _ end) _ => head_scrutinee x
  | step ?x _ => head_scrutinee x
  | _ => t
  end.

(** Unfold the statements of the component in [t], and nothing of the
    values they work on. *)
Ltac expand t :=
  let t' := eval cbv beta iota zeta delta
    [step enter go_on begin resume in_try to_first_await
     from_await bind lift ret throw emit modify read fetch no_results
     require_object_coercible
     setWeatherData setLoading setError setCity Keyboard_dismiss
     machine in_flight nth_error firstn skipn app fst snd ui effects
     city weatherData loading error finished attempt started
     try_block try_catch_finally] in t in
  change t with t'.

(** One case for each way the value waited for can come out. *)
Ltac branch lhs :=
  let x := head_scrutinee lhs in
  lazymatch x with
  | pair _ _ => fail
  | mkSession _ _ => fail
  | _ => destruct x eqn:?; cbv beta iota zeta
  end.

(** Run a session on: the next event, or the next value waited for. *)
Ltac advance :=
  match goal with
  | |- context [step (mkSession ?m ?l) ?ev] => expand (step (mkSession m l) ev)
  | |- ?lhs = _ => branch lhs
  end.

Section SessionFacts.
Context {E : Engine}.

(** Cut at its [await]s and left to run alone, the function does what
    [fetchWeather] does. *)
Lemma alone_after net m :
  run (alone net) (mkSession m []) = mkSession (after net m) [].
Proof.
  destruct (blank (city (ui m))) eqn:Hb.
  - rewrite (after_blank net m Hb).
    destruct m as [[c w ld er] l]. cbn [ui city] in Hb.
    cbn [run alone fold_left].
    expand (step (mkSession (mkMachine (mkState c w ld er) l) []) (SubmitEditing net)).
    rewrite trim_falsy, Hb. cbv beta iota zeta.
    repeat advance. reflexivity.
  - rewrite (after_lookup net m Hb).
    destruct m as [[c w ld er] l]. cbn [ui city] in Hb.
    cbn [run alone fold_left].
    match goal with |- _ = ?r => expand r end.
    expand (step (mkSession (mkMachine (mkState c w ld er) l) []) (SubmitEditing net)).
    rewrite trim_falsy, Hb. cbv beta iota zeta.
    repeat advance.
    all: reflexivity.
Qed.

(** The [try] block does not read the record of what was done before. *)
Lemma try_block_log_blind net c s l l0 :
  exists l',
    try_block net c (mkMachine s l)
    = (fst (try_block net c (mkMachine s l0)),
       mkMachine (ui (snd (try_block net c (mkMachine s l0)))) l').
Proof.
  expand (try_block net c (mkMachine s l)).
  expand (try_block net c (mkMachine s l0)).
  repeat match goal with |- exists _, ?lhs = _ => branch lhs end.
  all: eexists; reflexivity.
Qed.

Lemma after_log_blind net s l :
  ui (after net (mkMachine s l)) = ui (after net (fresh s)).
Proof.
  destruct (blank (city s)) eqn:Hb.
  - now rewrite !after_blank by exact Hb.
  - rewrite !after_lookup by exact Hb.
    unfold attempt, started, fresh. cbn [ui effects].
    destruct (try_block_log_blind net (city s) (mkState (city s) None true None)
                (l ++ [KeyboardDismiss]) ([] ++ [KeyboardDismiss])) as [l' ->].
    reflexivity.
Qed.

Lemma Math_round_integral x : integral (Math_round x).
Proof. destruct x; cbn; auto. now eexists. Qed.

(** A call returns at once, or clears the three cells and waits, or
    fails before its first request. *)
Lemma begin_cases m :
  begin m = (Normal None, m) \/
  (exists p l,
      begin m
      = (Normal (Some p), mkMachine (mkState (city (ui m)) None true None) l)) \/
  (exists e l,
      begin m
      = (Normal None,
         mkMachine (mkState (city (ui m)) None false
                      (Some (message_or_default e))) l)).
Proof.
  destruct m as [[c w ld er] l].
  expand (begin (mkMachine (mkState c w ld er) l)).
  repeat match goal with |- ?lhs = _ \/ _ => branch lhs end.
  all: cbn [ui city].
  all: first [ left; reflexivity
             | right; left; do 2 eexists; reflexivity
             | right; right; do 2 eexists; reflexivity ].
Qed.

(** An invocation that goes on waits again, the state untouched, or ends
    by storing an error, or ends by storing a result. *)
Lemma resume_cases net p m :
  (exists p' l, resume net p m = (Normal (Some p'), mkMachine (ui m) l)) \/
  (exists e l,
      resume net p m
      = (Normal None,
         mkMachine (mkState (city (ui m)) (weatherData (ui m)) false
                      (Some (message_or_default e))) l)) \/
  (exists w l,
      integral (Reading.temp w) /\
      resume net p m
      = (Normal None,
         mkMachine (mkState (city (ui m)) (Some w) false (error (ui m))) l)).
Proof.
  destruct m as [[c w ld er] l].
  destruct p.
  all: match goal with
       | |- context [resume ?n ?p ?m] => expand (resume n p m)
       end.
  all: repeat match goal with |- (exists _ _, ?lhs = _) \/ _ => branch lhs end.
  all: cbn [ui city weatherData error].
  all: first [ left; do 2 eexists; reflexivity
             | right; left; do 2 eexists; reflexivity
             | right; right; do 2 eexists;
               split; [|reflexivity]; apply Math_round_integral ].
Qed.

Lemma run_app evs1 evs2 ss : run (evs1 ++ evs2) ss = run evs2 (run evs1 ss).
Proof. apply fold_left_app. Qed.

Lemma run_invariant (P : Session -> Prop) :
  (forall ss ev, P ss -> P (step ss ev)) ->
  forall evs ss, P ss -> P (run evs ss).
Proof.
  intros Hstep evs. induction evs as [|ev evs IH]; intros ss H; [exact H|].
  apply IH, Hstep, H.
Qed.

Lemma reach_initial : reachable initial.
Proof. exists []. split; reflexivity. Qed.

Lemma reach_edit s text :
  reachable s -> reachable (ui (snd (setCity text (fresh s)))).
Proof.
  intros (evs & Hq & Hs). exists (evs ++ [ChangeText text]).
  rewrite run_app. cbn [run fold_left step machine in_flight].
  split; [exact Hq|]. subst s. reflexivity.
Qed.

(** Lookups run one at a time are among the runs of a session. *)
Lemma reach_lookup s net :
  reachable s -> reachable (ui (after net (fresh s))).
Proof.
  intros (evs & Hq & Hs). exists (evs ++ alone net).
  rewrite run_app.
  destruct (run evs opened) as [[s0 l] fl]. cbn [machine in_flight ui] in Hq, Hs.
  subst fl s0. rewrite alone_after. cbn [machine in_flight].
  split; [reflexivity | apply after_log_blind].
Qed.

(** A step keeps what every write of the component keeps. *)
Lemma step_keeps (P : AppState -> Prop) :
  (forall s text, P s -> P (mkState text (weatherData s) (loading s) (error s))) ->
  (forall s, P s -> P (mkState (city s) None true None)) ->
  (forall s e, P s ->
               P (mkState (city s) (weatherData s) false
                    (Some (message_or_default e)))) ->
  (forall s w, integral (Reading.temp w) -> P s ->
               P (mkState (city s) (Some w) false (error s))) ->
  forall ss ev, P (ui (machine ss)) -> P (ui (machine (step ss ev))).
Proof.
  intros Hedit Hstart Hfail Hdone [m fl] ev H. cbn [machine] in H.
  assert (Henter : forall net, P (ui (machine (enter net (mkSession m fl))))).
  { intros net. unfold enter. cbn [machine in_flight].
    destruct (begin_cases m) as [-> | [(p & l & ->) | (e & l & ->)]];
      cbn [machine ui]; auto.
    apply (Hfail (mkState (city (ui m)) None true None) e). auto. }
  destruct ev as [text|net|net|i]; cbn [step machine in_flight].
  - apply Hedit, H.
  - apply Henter.
  - destruct (loading (ui m)); [exact H | apply Henter].
  - unfold go_on. cbn [machine in_flight].
    destruct (nth_error fl i) as [[net p]|]; [|exact H].
    destruct (resume_cases net p m)
      as [(p' & l & ->) | [(e & l & ->) | (w & l & Hw & ->)]];
      cbn [machine ui]; auto.
Qed.

(** With no lookup in flight the loading flag is down. *)
Lemma step_idle ss ev :
  (in_flight ss = [] -> loading (ui (machine ss)) = false) ->
  in_flight (step ss ev) = [] -> loading (ui (machine (step ss ev))) = false.
Proof.
  destruct ss as [m fl]. cbn [machine in_flight]. intros H.
  assert (Henter : forall net,
             in_flight (enter net (mkSession m fl)) = [] ->
             loading (ui (machine (enter net (mkSession m fl)))) = false).
  { intros net. unfold enter. cbn [machine in_flight].
    destruct (begin_cases m) as [-> | [(p & l & ->) | (e & l & ->)]];
      cbn [machine in_flight ui loading]; auto.
    intros Hnil. now apply app_eq_nil in Hnil. }
  destruct ev as [text|net|net|i]; cbn [step machine in_flight].
  - exact H.
  - apply Henter.
  - destruct (loading (ui m)) eqn:Hl; [|apply Henter].
    cbn [machine in_flight]. rewrite Hl. exact H.
  - unfold go_on. cbn [machine in_flight].
    destruct (nth_error fl i) as [[net p]|]; [|exact H].
    destruct (resume_cases net p m)
      as [(p' & l & ->) | [(e & l & ->) | (w & l & Hw & ->)]];
      cbn [machine in_flight ui loading]; auto.
    intros Hnil. apply app_eq_nil in Hnil. now destruct Hnil.
Qed.

Lemma reachable_idle s : reachable s -> loading s = false.
Proof.
  intros (evs & Hq & <-).
  refine (run_invariant
            (fun ss => in_flight ss = [] -> loading (ui (machine ss)) = false)
            step_idle evs opened _ Hq).
  reflexivity.
Qed.

(** What the first state has and every write keeps, every state has. *)
Lemma reachable_keeps (P : AppState -> Prop) :
  P initial ->
  (forall s text, P s -> P (mkState text (weatherData s) (loading s) (error s))) ->
  (forall s, P s -> P (mkState (city s) None true None)) ->
  (forall s e, P s ->
               P (mkState (city s) (weatherData s) false
                    (Some (message_or_default e)))) ->
  (forall s w, integral (Reading.temp w) -> P s ->
               P (mkState (city s) (Some w) false (error s))) ->
  forall s, reachable s -> P s.
Proof.
  intros H0 Hedit Hstart Hfail Hdone s (evs & _ & <-).
  apply (run_invariant (fun ss => P (ui (machine ss)))).
  - now apply step_keeps.
  - exact H0.
Qed.

End SessionFacts.

(** ** Lookups *)

Section LookupClaims.
Context {E : Engine}.

(** C5.  On a query that is empty or made of white space only,
    [fetchWeather] returns at once: the promise resolves, and the machine
    is the one it started from, so that no request was sent and the stored
    result, the error message and the loading flag are what they were. *)
Theorem blank_query_is_noop net m :
  blank (city (ui m)) = true ->
  settles net m = Normal tt /\
  after net m = m /\
  requests (after net m) = requests m /\
  ui (after net m) = ui m.
Proof.
  intros Hb. rewrite (after_blank net m Hb).
  repeat apply conj; try reflexivity.
  apply settles_normal.
Qed.

(** C3, as the code has it.  When the geocoding body decodes to a value
    whose [results] is absent (or falsy in any other way) or is the empty
    array, the [try] block throws the error of line 39 and the lookup ends
    with its message 'Cidade não encontrada.' stored, no result, the
    loading flag cleared, and the geocoding request as its only request: no
    forecast request is sent. *)
Theorem lookup_not_found net s q resp geoData results :
  blank (city s) = false ->
  encodeURIComponent (city s) = Normal q ->
  net (geocoding_url q) = Normal resp ->
  json resp = Normal geoData ->
  get geoData (lit "results") = Normal results ->
  to_boolean results = false \/ results = JArr [] ->
  attempt net (fresh s) = Throw (Error (lit "Cidade não encontrada.")) /\
  settles net (fresh s) = Normal tt /\
  ui (after net (fresh s))
  = mkState (city s) None false (Some (lit "Cidade não encontrada.")) /\
  requests (after net (fresh s)) = [geocoding_url q].
Proof.
  intros Hb Hq Hnet Hjson Hres Hempty.
  assert (Hknown : negb (to_boolean results) = true \/
                   negb (to_boolean results) = false /\
                   get results (lit "length") = Normal (JNum (int 0)) /\
                   strict_equals_number (JNum (int 0)) 0 = true).
  { destruct Hempty as [Hfalsy | ->].
    - left. now rewrite Hfalsy.
    - right. repeat apply conj; [reflexivity | exact (get_length []) | reflexivity]. }
  destruct Hknown as [Hnot | (Hnot & Hlen & Hzero)].
  all: split;
    [ unfold attempt;
      pattern (fst (try_block net (city (ui (fresh s))) (started (fresh s))));
      apply (wp_block net (fun r _ => _ r));
      unfold try_block; wp_run; reflexivity
    | invocation net (fresh s) Hb; wp_run; leaf;
      rewrite not_found_message; auto ].
Qed.

(** C4, as the code has it.  On a query that is not blank and that
    [encodeURIComponent] accepts, the requests of an invocation are the
    geocoding request alone, or the geocoding request followed by one
    forecast request whose latitude and longitude are those of the first
    element of the [results] of the decoded geocoding body. *)
Theorem lookup_request_order net s q :
  blank (city s) = false ->
  encodeURIComponent (city s) = Normal q ->
  requests (after net (fresh s)) = [geocoding_url q] \/
  exists resp geoData results first latitude longitude,
    net (geocoding_url q) = Normal resp /\
    json resp = Normal geoData /\
    get geoData (lit "results") = Normal results /\
    get results (lit "0") = Normal first /\
    get first (lit "latitude") = Normal latitude /\
    get first (lit "longitude") = Normal longitude /\
    requests (after net (fresh s))
    = [geocoding_url q; forecast_url (to_string latitude) (to_string longitude)].
Proof.
  intros Hb Hq.
  invocation net (fresh s) Hb.
  wp_run.
  all: leaf.
  all: repeat match goal with
              | H : ToString _ = Normal _ |- _ =>
                  apply ToString_normal in H; rewrite H
              end.
  all: first [ left; reflexivity
             | right; do 6 eexists; repeat apply conj;
               eassumption || reflexivity ].
Qed.


(** C8.  After an invocation on a non-empty query the loading flag is
    false: in every state the component can be in with no lookup in flight,
    and, when the query is not blank, in any state at all. *)
Theorem loading_cleared net m :
  city (ui m) <> [] ->
  reachable (ui m) \/ blank (city (ui m)) = false ->
  loading (ui (after net m)) = false.
Proof.
  intros _ Hm.
  destruct (blank (city (ui m))) eqn:Hb.
  - rewrite (after_blank net m Hb).
    destruct Hm as [Hr | Hne]; [now apply reachable_idle | discriminate Hne].
  - destruct (lookup_outcome net m Hb) as [-> _].
    destruct (attempt net m); reflexivity.
Qed.

End LookupClaims.

Section ForecastClaims.
Context {E : Engine}.

(** C10, as the code has it.  The geocoding step having given a first
    result that is an object whose latitude and longitude convert to
    strings, and the forecast body having decoded: the promise resolves and
    the loading flag is cleared; when the body has no [current] (it reads
    as [undefined]), or a [null] one, or is itself [null], reading through
    it throws a TypeError, which the handler stores like any other failure,
    and no result is kept; when [current] is any other value both fields
    are read without an error, whatever fields [current] has, and the
    outcome is decided by the conversion of [temperature_2m] to a number
    alone: when it throws, the handler stores that error and no result is
    kept; when it gives a number, a result is stored with that number
    rounded and with the code as read, a missing [temperature_2m] giving
    the temperature NaN and a missing [weather_code] the code
    [undefined]. *)
Theorem forecast_without_current net s q resp geoData place more
    latitude_text longitude_text resp2 forecast :
  blank (city s) = false ->
  encodeURIComponent (city s) = Normal q ->
  net (geocoding_url q) = Normal resp ->
  json resp = Normal geoData ->
  get geoData (lit "results") = Normal (JArr (JObj place :: more)) ->
  ToString (lookup_field (lit "latitude") place) = Normal latitude_text ->
  ToString (lookup_field (lit "longitude") place) = Normal longitude_text ->
  net (forecast_url latitude_text longitude_text) = Normal resp2 ->
  json resp2 = Normal forecast ->
  let s' := ui (after net (fresh s)) in
  let failed e := weatherData s' = None /\ error s' = Some (message_or_default e) in
  settles net (fresh s) = Normal tt /\
  loading s' = false /\
  match get forecast (lit "current") with
  | Throw e => failed e
  | Normal current =>
      if nullish current
      then failed (TypeError (cannot_read_message current (lit "temperature_2m")))
      else
        exists temperature_2m weather_code,
          get current (lit "temperature_2m") = Normal temperature_2m /\
          get current (lit "weather_code") = Normal weather_code /\
          match ToNumber temperature_2m with
          | Throw e => failed e
          | Normal temperature =>
              error s' = None /\
              weatherData s'
              = Some (Reading.make (lookup_field (lit "name") place)
                        (lookup_field (lit "admin1") place)
                        (lookup_field (lit "country_code") place)
                        (Math_round temperature) weather_code) /\
              (temperature_2m = JUndefined -> Math_round temperature = NaN)
          end
  end.
Proof.
  intros Hb Hq Hnet Hjson Hres Hlat Hlon Hnet2 Hjson2.
  pose proof (get_length (JObj place :: more)) as Hlen.
  pose proof (get_first (JObj place) more) as Hfirst.
  pose proof (length_not_zero (List.length more)) as Hnz.
  cbn [List.length] in Hlen.
  assert (Hnot : negb (to_boolean (JArr (JObj place :: more))) = false)
    by reflexivity.
  assert (Hobj : nullish (JObj place) = false) by reflexivity.
  invocation net (fresh s) Hb.
  destruct (get forecast (lit "current")) as [current|e] eqn:Hcur.
  - destruct (nullish current) eqn:Hnull.
    + pose proof (get_nullish current (lit "temperature_2m") Hnull) as Ht.
      wp_run. leaf. auto.
    + destruct (get_defined current (lit "temperature_2m") Hnull) as [t Ht].
      destruct (get_defined current (lit "weather_code") Hnull) as [c Hc].
      destruct (ToNumber t) as [temperature|e] eqn:Hnum.
      * wp_run. leaf.
        repeat apply conj; try reflexivity.
        exists t, c. rewrite Hnum. repeat apply conj; try reflexivity.
        intros ->. now injection Hnum as <-.
      * wp_run. leaf.
        repeat apply conj; try reflexivity.
        exists t, c. rewrite Hnum. auto.
  - wp_run. leaf. auto.
Qed.

(** C6.  With 'sao paulo' typed, a network that answers the geocoding
    request with [{results:[{latitude:-23.5, longitude:-46.6, name:'São
    Paulo', admin1:'SP', country_code:'BR'}]}] and the forecast request for
    these coordinates with [{current:{temperature_2m:21.4, weather_code:3}}]
    leaves the result [{city:'São Paulo', region:'SP', country:'BR',
    temp:21, code:3}], no error and the loading flag cleared; 21.4 rounds
    to 21, and code 3 has the partly-cloudy presentation. *)
Theorem lookup_sao_paulo net s :
  city s = lit "sao paulo" ->
  net (geocoding_url (lit "sao%20paulo")) = body sao_paulo_geocoding ->
  net (forecast_url (to_string (JNum (Finite (-47 # 2))))
                    (to_string (JNum (Finite (-233 # 5)))))
  = body sao_paulo_forecast ->
  ui (after net (fresh s))
  = mkState (lit "sao paulo") (Some sao_paulo_reading) false None /\
  requests (after net (fresh s))
  = [geocoding_url (lit "sao%20paulo");
     forecast_url (to_string (JNum (Finite (-47 # 2))))
                  (to_string (JNum (Finite (-233 # 5))))] /\
  Math_round (Finite (107 # 5)) = int 21 /\
  getWeatherDetails (Reading.code sao_paulo_reading) = Normal partly_cloudy.
Proof.
  intros Hcity Hgeo Hforecast.
  assert (Hb : blank (city s) = false)
    by (rewrite Hcity; vm_compute; reflexivity).
  assert (Hq : encodeURIComponent (city s) = Normal (lit "sao%20paulo"))
    by (rewrite Hcity; vm_compute; reflexivity).
  unfold body, sao_paulo_geocoding, sao_paulo_place, sao_paulo_forecast in *.
  repeat apply conj.
  - invocation net (fresh s) Hb. wp_eval. leaf.
    rewrite Hcity. vm_compute. reflexivity.
  - invocation net (fresh s) Hb. wp_eval. leaf. reflexivity.
  - vm_compute. reflexivity.
  - apply (classify_chain 3).
Qed.

End ForecastClaims.

(** ** The theorems at work, and where the specification differs *)

(** C5 at the query of three spaces. *)
Lemma blank_query_is_noop_witness :
  blank (lit "   ") = true /\
  after (E := example_engine) sao_paulo_network (fresh (typed (lit "   ")))
  = fresh (typed (lit "   ")).
Proof.
  split.
  - vm_compute. reflexivity.
  - refine (proj1 (proj2
             (@blank_query_is_noop example_engine sao_paulo_network
                (fresh (typed (lit "   "))) _))).
    vm_compute. reflexivity.
Defined.

(** C3 as it is worded fails: with [{results: []}] for geocoding body,
    the message stored is not 'City not found'. *)
Lemma not_found_message_differs :
  get (E := example_engine) (JObj [(lit "results", JArr [])]) (lit "results")
  = Normal (JArr []) /\
  error (ui (after (E := example_engine) no_match_network
               (fresh (typed (lit "Atlantis")))))
  <> Some (lit "City not found").
Proof.
  split.
  - vm_compute. reflexivity.
  - vm_compute. intros H. discriminate H.
Qed.

(** The amended C3 on the same run. *)
Lemma lookup_not_found_witness :
  blank (lit "Atlantis") = false /\
  ui (after (E := example_engine) no_match_network (fresh (typed (lit "Atlantis"))))
  = mkState (city (typed (lit "Atlantis"))) None false
      (Some (lit "Cidade não encontrada.")) /\
  requests (after (E := example_engine) no_match_network
              (fresh (typed (lit "Atlantis"))))
  = [geocoding_url (lit "Atlantis")].
Proof.
  split.
  - vm_compute. reflexivity.
  - refine (proj2 (proj2
             (@lookup_not_found example_engine no_match_network
                (typed (lit "Atlantis")) (lit "Atlantis")
                (mkResponse (Normal (JObj [(lit "results", JArr [])])))
                (JObj [(lit "results", JArr [])]) (JArr []) _ _ _ _ _ _))).
    + vm_compute. reflexivity.
    + vm_compute. reflexivity.
    + vm_compute. reflexivity.
    + reflexivity.
    + vm_compute. reflexivity.
    + right. reflexivity.
Defined.

(** C4 as it is worded fails: a query of three spaces is not empty, and
    neither is a query made of one unpaired surrogate, yet on either the
    invocation sends no request at all. *)
Lemma non_empty_query_without_request :
  (lit "   " <> [] /\
   requests (after (E := example_engine) sao_paulo_network
               (fresh (typed (lit "   ")))) = []) /\
  ([0xD83D%N] <> [] /\
   requests (after (E := example_engine) sao_paulo_network
               (fresh (typed [0xD83D%N]))) = []).
Proof.
  repeat apply conj; try (vm_compute; reflexivity);
    vm_compute; intros H; discriminate H.
Qed.

(** The amended C4 on the lookup of 'sao paulo'. *)
Lemma lookup_request_order_witness :
  blank (lit "sao paulo") = false /\
  (requests (after (E := example_engine) sao_paulo_network
               (fresh (typed (lit "sao paulo"))))
   = [geocoding_url (lit "sao%20paulo")] \/
   exists resp geoData results first latitude longitude,
     sao_paulo_network (geocoding_url (lit "sao%20paulo")) = Normal resp /\
     json resp = Normal geoData /\
     get (E := example_engine) geoData (lit "results") = Normal results /\
     get (E := example_engine) results (lit "0") = Normal first /\
     get (E := example_engine) first (lit "latitude") = Normal latitude /\
     get (E := example_engine) first (lit "longitude") = Normal longitude /\
     requests (after (E := example_engine) sao_paulo_network
                 (fresh (typed (lit "sao paulo"))))
     = [geocoding_url (lit "sao%20paulo");
        forecast_url (to_string (E := example_engine) latitude)
                     (to_string (E := example_engine) longitude)]).
Proof.
  split.
  - vm_compute. reflexivity.
  - refine (@lookup_request_order example_engine sao_paulo_network
              (typed (lit "sao paulo")) (lit "sao%20paulo") _ _).
    + vm_compute. reflexivity.
    + vm_compute. reflexivity.
Defined.

(** C6 on the example engine. *)
Lemma lookup_sao_paulo_witness :
  city (typed (lit "sao paulo")) = lit "sao paulo" /\
  ui (after (E := example_engine) sao_paulo_network
        (fresh (typed (lit "sao paulo"))))
  = mkState (lit "sao paulo") (Some sao_paulo_reading) false None.
Proof.
  split.
  - reflexivity.
  - refine (proj1
             (@lookup_sao_paulo example_engine sao_paulo_network
                (typed (lit "sao paulo")) _ _ _)).
    + reflexivity.
    + vm_compute. reflexivity.
    + vm_compute. reflexivity.
Defined.



(** C8 after a lookup of 'Lisboa' with the network down. *)
Lemma loading_cleared_witness :
  city (ui (fresh (typed (lit "Lisboa")))) <> [] /\
  loading (ui (after (E := example_engine) offline (fresh (typed (lit "Lisboa")))))
  = false.
Proof.
  assert (Hne : city (ui (fresh (typed (lit "Lisboa")))) <> [])
    by (vm_compute; intros H; discriminate H).
  split.
  - exact Hne.
  - refine (@loading_cleared example_engine offline
              (fresh (typed (lit "Lisboa"))) Hne _).
    left. exact (reach_edit (lit "Lisboa") reach_initial).
Defined.

(** C9 fails on the code.  'sao paulo' is submitted from the keyboard and,
    while its geocoding request is out, 'Atlantis' is typed and submitted
    too; the second lookup is answered first and finds nothing, then the
    first one gets its two answers.  Both lookups have completed, no
    request is left unanswered, the loading flag is down, and the state
    holds the result for São Paulo together with the error 'Cidade não
    encontrada.'.  The search button does not allow this: it is disabled
    while a lookup is loading, and with the second lookup asked for with
    the button the same run ends with the result and no error. *)
Theorem overlapping_lookups_keep_both :
  run (E := example_engine) overlapping opened
  = mkSession
      (mkMachine
         (mkState (lit "Atlantis") (Some sao_paulo_reading) false
            (Some (lit "Cidade não encontrada.")))
         [KeyboardDismiss; Fetch (geocoding_url (lit "sao%20paulo"));
          KeyboardDismiss; Fetch (geocoding_url (lit "Atlantis"));
          Fetch (forecast_url
                   (to_string (E := example_engine) (JNum (Finite (-47 # 2))))
                   (to_string (E := example_engine) (JNum (Finite (-233 # 5)))))])
      [] /\
  reachable (E := example_engine)
    (mkState (lit "Atlantis") (Some sao_paulo_reading) false
       (Some (lit "Cidade não encontrada."))) /\
  ui (machine (run (E := example_engine) by_the_button opened))
  = mkState (lit "Atlantis") (Some sao_paulo_reading) false None.
Proof.
  assert (Hrun : run (E := example_engine) overlapping opened
                 = mkSession
                     (mkMachine
                        (mkState (lit "Atlantis") (Some sao_paulo_reading) false
                           (Some (lit "Cidade não encontrada.")))
                        [KeyboardDismiss; Fetch (geocoding_url (lit "sao%20paulo"));
                         KeyboardDismiss; Fetch (geocoding_url (lit "Atlantis"));
                         Fetch (forecast_url
                                  (to_string (E := example_engine)
                                     (JNum (Finite (-47 # 2))))
                                  (to_string (E := example_engine)
                                     (JNum (Finite (-233 # 5)))))])
                     [])
    by (vm_compute; reflexivity).
  repeat apply conj.
  - exact Hrun.
  - exists overlapping. rewrite Hrun. split; reflexivity.
  - vm_compute. reflexivity.
Qed.

(** C10 as it is worded fails: with a forecast body [{current: {}}], which
    has neither [temperature_2m] nor [weather_code], nothing is raised and a
    result is stored, with no error. *)
Lemma missing_fields_store_reading :
  get (E := example_engine) (JObj []) (lit "temperature_2m") = Normal JUndefined /\
  get (E := example_engine) (JObj []) (lit "weather_code") = Normal JUndefined /\
  ~ (weatherData (ui (after (E := example_engine) empty_current_network
                        (fresh (typed (lit "sao paulo"))))) = None /\
     error (ui (after (E := example_engine) empty_current_network
                  (fresh (typed (lit "sao paulo"))))) <> None).
Proof.
  repeat apply conj; try reflexivity.
  vm_compute. intros [H _]. discriminate H.
Qed.

(** The amended C10 with a forecast body [{}]: the lookup ends in the
    error state. *)
Lemma forecast_without_current_witness :
  blank (city (typed (lit "sao paulo"))) = false /\
  get (E := example_engine) (JObj []) (lit "current") = Normal JUndefined /\
  settles (E := example_engine) no_current_network (fresh (typed (lit "sao paulo")))
  = Normal tt /\
  loading (ui (after (E := example_engine) no_current_network
                 (fresh (typed (lit "sao paulo"))))) = false /\
  weatherData (ui (after (E := example_engine) no_current_network
                     (fresh (typed (lit "sao paulo"))))) = None.
Proof.
  assert (Hb : blank (city (typed (lit "sao paulo"))) = false)
    by (vm_compute; reflexivity).
  pose proof (@forecast_without_current example_engine no_current_network
                (typed (lit "sao paulo")) (lit "sao%20paulo")
                (mkResponse (Normal sao_paulo_geocoding)) sao_paulo_geocoding
                sao_paulo_place []
                (to_string (E := example_engine) (JNum (Finite (-47 # 2))))
                (to_string (E := example_engine) (JNum (Finite (-233 # 5))))
                (mkResponse (Normal (JObj []))) (JObj [])
                Hb) as H.
  destruct H as (Hsettles & Hloading & Hfailed).
  - vm_compute. reflexivity.
  - vm_compute. reflexivity.
  - reflexivity.
  - vm_compute. reflexivity.
  - vm_compute. reflexivity.
  - vm_compute. reflexivity.
  - vm_compute. reflexivity.
  - reflexivity.
  - repeat apply conj.
    + exact Hb.
    + reflexivity.
    + exact Hsettles.
    + exact Hloading.
    + exact (proj1 Hfailed).
Defined.

(** * Further properties of the code *)

(** ** What an invocation sends *)

Section Requests.
Context {E : Engine}.

Lemma try_block_requests net c m :
  wp (try_block net c)
     (fun r m' =>
        match encodeURIComponent c with
        | Throw _ => effects m' = effects m
        | Normal q =>
            effects m' = effects m ++ [Fetch (geocoding_url q)] \/
            exists a b,
              effects m' = effects m ++ [Fetch (geocoding_url q);
                                         Fetch (forecast_url a b)]
        end) m.
Proof.
  unfold try_block. wp_run.
  all: cbn [effects]; rewrite <- ?app_assoc; cbn [app].
  all: first [ reflexivity
             | left; reflexivity
             | right; do 2 eexists; reflexivity ].
Qed.

Lemma effects_after_lookup net m :
  blank (city (ui m)) = false ->
  match encodeURIComponent (city (ui m)) with
  | Throw _ => effects (after net m) = effects m ++ [KeyboardDismiss]
  | Normal q =>
      effects (after net m)
      = effects m ++ [KeyboardDismiss; Fetch (geocoding_url q)] \/
      exists a b,
        effects (after net m)
        = effects m ++ [KeyboardDismiss; Fetch (geocoding_url q);
                        Fetch (forecast_url a b)]
  end.
Proof.
  intros Hb. rewrite (after_lookup net m Hb). unfold finished. cbn [effects].
  pose proof (try_block_requests net (city (ui m)) (started m)) as H.
  unfold wp in H. cbn [started effects] in H.
  destruct (encodeURIComponent (city (ui m))) as [q|e].
  - destruct H as [H | (a & b & H)].
    + left. rewrite H, <- app_assoc. reflexivity.
    + right. exists a, b. rewrite H, <- app_assoc. reflexivity.
  - exact H.
Qed.

Lemma request_shape_of net s :
  requests (after net (fresh s)) = [] \/
  exists q, encodeURIComponent (city s) = Normal q /\
    (requests (after net (fresh s)) = [geocoding_url q] \/
     exists latitude longitude,
       requests (after net (fresh s))
       = [geocoding_url q; forecast_url latitude longitude]).
Proof.
  destruct (blank (city s)) eqn:Hb.
  - left. now rewrite (after_blank net (fresh s) Hb).
  - pose proof (effects_after_lookup net (fresh s) Hb) as H.
    cbn [fresh ui effects] in H.
    destruct (encodeURIComponent (city s)) as [q|e].
    + right. exists q. split; [reflexivity|].
      destruct H as [H | (a & b & H)]; unfold requests; rewrite H; cbn.
      * now left.
      * right. now exists a, b.
    + left. unfold requests. now rewrite H.
Qed.

(** X1.  An invocation leaves the machine exactly as it found it (no
    effect, no change of state) if and only if the text is blank: on any
    other text it does something, whatever the network answers. *)
Theorem lookup_skipped_iff_blank net m :
  after net m = m <-> blank (city (ui m)) = true.
Proof.
  split.
  - intros Hsame. destruct (blank (city (ui m))) eqn:Hb; [reflexivity|].
    exfalso.
    assert (Hlen : List.length (effects (after net m)) = List.length (effects m))
      by now rewrite Hsame.
    pose proof (effects_after_lookup net m Hb) as H.
    destruct (encodeURIComponent (city (ui m))) as [q|e];
      [destruct H as [H | (a & b & H)]|];
      rewrite H, length_app in Hlen; cbn in Hlen; lia.
  - apply after_blank.
Qed.

(** X2.  Whatever the text and the network, an invocation sends no
    request, or the geocoding request for the encoded text alone, or that
    request followed by one forecast request: never more than two, never
    a forecast request first or alone. *)
Theorem request_shape net s :
  (List.length (requests (after net (fresh s))) <= 2)%nat /\
  (requests (after net (fresh s)) = [] \/
   exists q, encodeURIComponent (city s) = Normal q /\
     (requests (after net (fresh s)) = [geocoding_url q] \/
      exists latitude longitude,
        requests (after net (fresh s))
        = [geocoding_url q; forecast_url latitude longitude])).
Proof.
  pose proof (request_shape_of net s) as H. split; [|exact H].
  destruct H as [H | (q & _ & [H | (a & b & H)])]; rewrite H; cbn; lia.
Qed.

(** X6.  The effects of an invocation, in order: nothing on a blank text;
    otherwise [Keyboard.dismiss()] once, first, and then the requests and
    nothing else, also when the lookup fails. *)
Theorem keyboard_dismissed_first net s :
  effects (after net (fresh s))
  = if blank (city s) then []
    else KeyboardDismiss :: map Fetch (requests (after net (fresh s))).
Proof.
  destruct (blank (city s)) eqn:Hb.
  - now rewrite (after_blank net (fresh s) Hb).
  - pose proof (effects_after_lookup net (fresh s) Hb) as H.
    cbn [fresh ui effects] in H.
    destruct (encodeURIComponent (city s)) as [q|e];
      [destruct H as [H | (a & b & H)]|];
      unfold requests; rewrite H; reflexivity.
Qed.

Lemma starts_with_app p a b : starts_with p a = true -> starts_with p (a ++ b) = true.
Proof.
  revert a. induction p as [|x p IH]; intros [|y a]; cbn; try congruence.
  intros H. apply andb_true_iff in H as [Hx Hp].
  now rewrite Hx, IH.
Qed.

Lemma geocoding_url_host q : starts_with geocoding_api (geocoding_url q) = true.
Proof.
  unfold geocoding_url. apply starts_with_app. vm_compute. reflexivity.
Qed.

Lemma forecast_url_host a b : starts_with forecast_api (forecast_url a b) = true.
Proof.
  unfold forecast_url. apply starts_with_app. vm_compute. reflexivity.
Qed.

(** X3.  Every URL an invocation requests begins with
    'https://geocoding-api.open-meteo.com/' or with
    'https://api.open-meteo.com/v1/forecast?', whatever the text typed and
    whatever the geocoding body holds. *)
Theorem requests_only_open_meteo net s url :
  In url (requests (after net (fresh s))) ->
  starts_with geocoding_api url = true \/ starts_with forecast_api url = true.
Proof.
  intros Hin.
  destruct (request_shape_of net s) as [H | (q & _ & [H | (a & b & H)])];
    rewrite H in Hin; cbn [In] in Hin.
  - destruct Hin.
  - destruct Hin as [<- | []]. left. apply geocoding_url_host.
  - destruct Hin as [<- | [<- | []]].
    + left. apply geocoding_url_host.
    + right. apply forecast_url_host.
Qed.

End Requests.

(** ** The text in the geocoding URL *)

Lemma hex_digit_safe n : (n < 16)%N -> is_uri_unreserved (hex_digit n) = true.
Proof.
  intros H. destruct n as [|p]; [reflexivity|].
  do 4 (destruct p as [p|p|]; try reflexivity); lia.
Qed.

Lemma percent_safe o : (o < 256)%N -> forallb is_uri_safe (percent o) = true.
Proof.
  intros H. unfold percent, is_uri_safe. cbn [forallb].
  rewrite !hex_digit_safe.
  - reflexivity.
  - apply N.mod_lt. discriminate.
  - apply N.Div0.div_lt_upper_bound. exact H.
Qed.

Lemma utf8_octets_bytes cp :
  (cp < 0x110000)%N -> Forall (fun o => (o < 256)%N) (utf8_octets cp).
Proof.
  intros H. unfold utf8_octets.
  repeat match goal with
         | |- context [(?a <? ?b)%N] => destruct (N.ltb_spec a b)
         end;
    repeat (apply Forall_cons || apply Forall_nil);
    zify; Z.to_euclidean_division_equations; lia.
Qed.

Lemma escape_safe cp : (cp < 0x110000)%N -> forallb is_uri_safe (escape cp) = true.
Proof.
  intros H. unfold escape.
  induction (utf8_octets_bytes H) as [|o l Ho _ IH]; [reflexivity|].
  cbn [flat_map]. rewrite forallb_app, IH, percent_safe by exact Ho. reflexivity.
Qed.

Section Encoding.
Context {E : Engine}.

Lemma encodeURIComponent_cons c r :
  encodeURIComponent (c :: r)
  = if is_uri_unreserved c then prepend [c] (encodeURIComponent r)
    else if is_trail_surrogate c then Throw (URIError uri_malformed_message)
    else if is_lead_surrogate c then
      match r with
      | [] => Throw (URIError uri_malformed_message)
      | d :: r' =>
          if is_trail_surrogate d
          then prepend
                 (escape (0x10000 + (c - 0xD800) * 0x400 + (d - 0xDC00))%N)
                 (encodeURIComponent r')
          else Throw (URIError uri_malformed_message)
      end
    else prepend (escape c) (encodeURIComponent r).
Proof. reflexivity. Qed.

Lemma prepend_safe p r q :
  forallb is_uri_safe p = true ->
  (forall q', r = Normal q' -> forallb is_uri_safe q' = true) ->
  prepend p r = Normal q -> forallb is_uri_safe q = true.
Proof.
  intros Hp Hr. destruct r as [q'|e]; cbn; [|discriminate].
  intros H. injection H as <-. rewrite forallb_app, Hp. now apply Hr.
Qed.

(** The function steps over one code unit or over two: induction on a
    bound of the length. *)
Lemma encode_safe_upto n :
  forall s q, (List.length s <= n)%nat ->
    code_units s = true ->
    encodeURIComponent s = Normal q -> forallb is_uri_safe q = true.
Proof.
  induction n as [|n IH]; intros [|c r] q Hlen Hcu Henc;
    cbn [List.length] in Hlen; try lia.
  - cbn in Henc. now injection Henc as <-.
  - cbn in Henc. now injection Henc as <-.
  - cbn [code_units forallb] in Hcu. apply andb_true_iff in Hcu as [Hc Hr].
    apply N.ltb_lt in Hc.
    rewrite encodeURIComponent_cons in Henc.
    destruct (is_uri_unreserved c) eqn:Hun.
    { eapply prepend_safe; [| |exact Henc].
      - cbn. unfold is_uri_safe. now rewrite Hun.
      - intros q' Hq'. apply (IH r q'); [lia|exact Hr|exact Hq']. }
    destruct (is_trail_surrogate c) eqn:Htr; [discriminate|].
    destruct (is_lead_surrogate c) eqn:Hld.
    + destruct r as [|d r']; [discriminate|].
      destruct (is_trail_surrogate d) eqn:Htd; [|discriminate].
      cbn [forallb] in Hr. apply andb_true_iff in Hr as [Hd Hr'].
      unfold is_lead_surrogate in Hld. unfold is_trail_surrogate in Htd.
      apply andb_true_iff in Hld as [Hl1 Hl2], Htd as [Ht1 Ht2].
      apply N.leb_le in Hl1, Hl2, Ht1, Ht2.
      eapply prepend_safe; [| |exact Henc].
      * apply escape_safe. lia.
      * intros q' Hq'. apply (IH r' q'); [cbn in Hlen; lia|exact Hr'|exact Hq'].
    + eapply prepend_safe; [| |exact Henc].
      * apply escape_safe. lia.
      * intros q' Hq'. apply (IH r q'); [lia|exact Hr|exact Hq'].
Qed.

Lemma encode_accepts s :
  forallb (fun c => negb (is_surrogate c)) s = true ->
  exists q, encodeURIComponent s = Normal q.
Proof.
  induction s as [|c r IH]; intros Hs; [now exists []|].
  cbn [forallb] in Hs. apply andb_true_iff in Hs as [Hc Hr].
  destruct (IH Hr) as [q Hq].
  assert (Htr : is_trail_surrogate c = false /\ is_lead_surrogate c = false).
  { unfold is_surrogate in Hc. unfold is_trail_surrogate, is_lead_surrogate.
    apply negb_true_iff, andb_false_iff in Hc.
    split; apply andb_false_iff;
      destruct Hc as [Hc | Hc]; apply N.leb_gt in Hc;
      first [ left; apply N.leb_gt; lia | right; apply N.leb_gt; lia ]. }
  destruct Htr as [Htr Hld].
  rewrite encodeURIComponent_cons, Htr, Hld, Hq.
  destruct (is_uri_unreserved c); eexists; reflexivity.
Qed.

(** X4.  Whatever the user types, the [name] parameter of the geocoding
    request is made of unreserved characters and percent signs only: the
    characters '&', '=', '?', '#', '/', '+' and the space are none of
    these, so the text cannot add to, or cut short, the query string. *)
Theorem geocoding_name_is_escaped net s url :
  code_units (city s) = true ->
  nth_error (requests (after net (fresh s))) 0 = Some url ->
  (exists q, url = geocoding_url q /\ forallb is_uri_safe q = true) /\
  forallb (fun c => negb (is_uri_safe c)) (lit "&=?#/+ ") = true.
Proof.
  intros Hcu Hurl. split; [|vm_compute; reflexivity].
  destruct (request_shape_of net s) as [H | (q & Hq & H)].
  - rewrite H in Hurl. discriminate Hurl.
  - exists q.
    assert (Hsafe : forallb is_uri_safe q = true)
      by exact (@encode_safe_upto (List.length (city s)) (city s) q
                  (le_n _) Hcu Hq).
    destruct H as [H | (a & b & H)]; rewrite H in Hurl;
      cbn [nth_error] in Hurl; injection Hurl as Hu;
      (split; [symmetry; exact Hu | exact Hsafe]).
Qed.

(** X5.  A text that is not blank and holds no surrogate code unit is
    always accepted by [encodeURIComponent], and the geocoding request for
    it is sent first. *)
Theorem text_without_surrogates_is_sent net s :
  blank (city s) = false ->
  forallb (fun c => negb (is_surrogate c)) (city s) = true ->
  exists q rest,
    encodeURIComponent (city s) = Normal q /\
    requests (after net (fresh s)) = geocoding_url q :: rest.
Proof.
  intros Hb Hs. destruct (encode_accepts (city s) Hs) as [q Hq].
  pose proof (effects_after_lookup net (fresh s) Hb) as H.
  cbn [fresh ui effects] in H. rewrite Hq in H.
  exists q.
  destruct H as [H | (a & b & H)]; unfold requests; rewrite H; cbn;
    eexists; (split; [exact Hq | reflexivity]).
Qed.

End Encoding.

(** ** What a lookup does to the state *)

Section Outcomes.
Context {E : Engine}.

(** X7.  An invocation never changes the text of the field, whether it
    is skipped, fails or succeeds. *)
Theorem lookup_keeps_city net m : city (ui (after net m)) = city (ui m).
Proof.
  destruct (blank (city (ui m))) eqn:Hb.
  - now rewrite (after_blank net m Hb).
  - destruct (lookup_outcome net m Hb) as [-> _].
    destruct (attempt net m); reflexivity.
Qed.




Lemma message_or_default_nonempty e : message_or_default e <> [].
Proof.
  rewrite message_or_default_cases.
  destruct (message e) eqn:Hm.
  - vm_compute. discriminate.
  - discriminate.
Qed.

Lemma render_error_message e :
  render_error (Some (message_or_default e)) = Some (message_or_default e).
Proof.
  unfold render_error.
  pose proof (message_or_default_nonempty e) as H.
  destruct (message_or_default e); [contradiction|reflexivity].
Qed.

Lemma reachable_error_nonempty s : reachable s -> error s <> Some [].
Proof.
  apply (reachable_keeps (fun s => error s <> Some [])); cbn [error]; auto.
  - discriminate.
  - discriminate.
  - intros _ e _ H. injection H as H.
    now apply message_or_default_nonempty in H.
Qed.

(** X10.  In every state of the component with no lookup in flight the
    stored error is [null] or a string that is not empty, so the test
    [error && ...] of the banner shows every stored error: no failure is
    stored and left unseen. *)
Theorem stored_error_never_empty s :
  reachable s -> error s <> Some [] /\ render_error (error s) = error s.
Proof.
  intros Hr. pose proof (@reachable_error_nonempty s Hr) as Hne.
  split; [exact Hne|].
  unfold render_error. destruct (error s) as [[|c r]|]; try reflexivity.
  now contradiction Hne.
Qed.

(** X11.  A stored result always has both responses behind it: when a
    lookup leaves a result, the geocoding request succeeded and decoded,
    the forecast request for the coordinates of the first element of its
    [results] succeeded and decoded, the city, region and country of the
    result are the [name], [admin1] and [country_code] of that element, its
    code is the [weather_code] of the forecast's [current], and its
    temperature is the rounded [temperature_2m]. *)
Theorem reading_provenance net s w :
  blank (city s) = false ->
  weatherData (ui (after net (fresh s))) = Some w ->
  exists q resp geoData results first resp2 forecast current,
    encodeURIComponent (city s) = Normal q /\
    net (geocoding_url q) = Normal resp /\
    json resp = Normal geoData /\
    get geoData (lit "results") = Normal results /\
    get results (lit "0") = Normal first /\
    (exists latitude longitude,
        get first (lit "latitude") = Normal latitude /\
        get first (lit "longitude") = Normal longitude /\
        net (forecast_url (to_string latitude) (to_string longitude))
        = Normal resp2) /\
    json resp2 = Normal forecast /\
    get forecast (lit "current") = Normal current /\
    get first (lit "name") = Normal (Reading.city w) /\
    get first (lit "admin1") = Normal (Reading.region w) /\
    get first (lit "country_code") = Normal (Reading.country w) /\
    get current (lit "weather_code") = Normal (Reading.code w) /\
    exists temperature_2m,
      get current (lit "temperature_2m") = Normal temperature_2m /\
      Reading.temp w = Math_round (to_number temperature_2m).
Proof.
  intros Hb. revert w.
  invocation net (fresh s) Hb. wp_run.
  all: leaf; intros w Hw; try discriminate Hw.
  injection Hw as <-. cbn [Reading.city Reading.region Reading.country
                            Reading.code Reading.temp].
  repeat match goal with
         | H : ToString _ = Normal ?t |- _ => apply ToString_normal in H; subst t
         | H : ToNumber _ = Normal ?n |- _ => apply ToNumber_normal in H; subst n
         end.
  do 8 eexists. repeat apply conj; try (eassumption || reflexivity).
  - do 2 eexists. repeat apply conj; eassumption || reflexivity.
  - eexists. split; eassumption || reflexivity.
Qed.

(** X12.  The temperature of a stored result is never fractional: in
    every state of the component with no lookup in flight it is an integer,
    or NaN or an infinity when the forecast gave no finite number. *)
Theorem stored_temperature_integral s w :
  reachable s -> weatherData s = Some w -> integral (Reading.temp w).
Proof.
  intros Hr. revert w.
  apply (reachable_keeps
           (fun s => forall w, weatherData s = Some w -> integral (Reading.temp w)));
    [ | | | | | exact Hr]; cbn [weatherData]; auto; try discriminate.
  intros _ w Hint _ w' [= <-]. exact Hint.
Qed.

(** X13.  A finite [temperature_2m] is stored as the nearest integer, a
    tie going up: the stored value [z] has [z - 1/2 <= q < z + 1/2]. *)
Theorem rounding_within_half q :
  exists z, Math_round (to_number (JNum (Finite q))) = int z /\
            (inject_Z z - (1 # 2) <= q)%Q /\ (q < inject_Z z + (1 # 2))%Q.
Proof.
  exists (Qfloor (q + (1 # 2))%Q). split; [reflexivity|].
  pose proof (Qfloor_le (q + (1 # 2))%Q) as Hlo.
  pose proof (Qlt_floor (q + (1 # 2))%Q) as Hhi.
  rewrite inject_Z_plus in Hhi. change (inject_Z 1) with 1%Q in Hhi.
  split; lra.
Qed.



End Outcomes.

(** ** What the screen shows *)

Section Screens.
Context {E : Engine}.


(** X17.  The tree [App] returns after a lookup, run with no other lookup
    in flight, on a text that is not blank.  When the lookup failed: the
    banner with the stored message, no result card, and the placeholder
    under the banner.  When it succeeded: no banner, no placeholder, and
    the card of the stored result, with the icon, colour and label
    [getWeatherDetails] gives for the stored code; when
    [getWeatherDetails] throws on that code, so does the rendering.  On
    the trees returned the search button is enabled again and shows the
    magnifier. *)
Theorem screen_after_lookup net s :
  blank (city s) = false ->
  match attempt net (fresh s) with
  | Throw e =>
      render (ui (after net (fresh s)))
      = Normal (mkScreen (city s) false MagnifyIcon
                  (Some (message_or_default e)) None true)
  | Normal _ =>
      exists w,
        weatherData (ui (after net (fresh s))) = Some w /\
        render (ui (after net (fresh s)))
        = match getWeatherDetails (Reading.code w) with
          | Normal p =>
              Normal (mkScreen (city s) false MagnifyIcon None
                        (Some (mkCard [Reading.city w; JStr (lit ", ");
                                       Reading.country w]
                                 (icon p) (color p)
                                 [JNum (Reading.temp w); JStr (lit "°C")]
                                 (label p)))
                        false)
          | Throw e => Throw e
          end
  end.
Proof.
  intros Hb.
  destruct (lookup_outcome net (fresh s) Hb) as [Hs Hw].
  destruct (attempt net (fresh s)) as [u|e].
  - specialize (Hw u eq_refl).
    destruct (weatherData (ui (after net (fresh s)))) as [w|] eqn:Hwd;
      [|contradiction].
    exists w. split; [reflexivity|].
    rewrite Hs. unfold render, render_card, and_then.
    cbn [city loading error weatherData fresh ui].
    destruct (getWeatherDetails (Reading.code w)); reflexivity.
  - rewrite Hs. unfold render, render_card, and_then.
    cbn [city loading error weatherData fresh ui].
    now rewrite render_error_message.
Qed.

(** X18.  When no lookup is in flight, whatever lookups came before and
    however they overlapped: in the tree [App] returns the search button
    is enabled and shows the magnifier, the banner shows the stored error
    when there is one, the result card is there exactly when a result is
    stored, and the placeholder exactly when the card is not; and [App]
    throws only on a stored result whose code makes [getWeatherDetails]
    throw. *)
Theorem screen_between_lookups s :
  reachable s ->
  match render s with
  | Normal screen =>
      button_disabled screen = false /\
      button_content screen = MagnifyIcon /\
      errorContainer screen = error s /\
      (resultCard screen = None <-> weatherData s = None) /\
      (placeholderContainer screen = true <-> resultCard screen = None)
  | Throw e =>
      exists w, weatherData s = Some w /\
                getWeatherDetails (Reading.code w) = Throw e
  end.
Proof.
  intros Hr.
  pose proof (reachable_idle Hr) as Hl.
  pose proof (reachable_error_nonempty Hr) as Hne.
  assert (Hbanner : render_error (error s) = error s).
  { unfold render_error. destruct (error s) as [[|c r]|]; try reflexivity.
    now contradiction Hne. }
  unfold render, render_card, and_then. rewrite Hl.
  destruct (weatherData s) as [w|].
  - destruct (getWeatherDetails (Reading.code w)) as [p|e] eqn:Hg.
    + cbn [button_disabled button_content errorContainer resultCard
           placeholderContainer andb].
      split; [reflexivity|]. split; [reflexivity|]. split; [exact Hbanner|].
      split; split; discriminate.
    + exists w. split; [reflexivity | exact Hg].
  - cbn [button_disabled button_content errorContainer resultCard
         placeholderContainer andb negb].
    split; [reflexivity|]. split; [reflexivity|]. split; [exact Hbanner|].
    split; split; reflexivity.
Qed.

End Screens.

(** ** Codes that are not integers *)

Section Codes.
Context {E : Engine}.

Lemma chain_at_zero q :
  Qeq_bool q (inject_Z 0) = true -> chain_at (Finite q) = clear_sky.
Proof.
  intros Hq. apply Qeq_bool_iff in Hq.
  assert (Hlow : forall k, (0 < k)%Z -> Qle_bool (inject_Z k) q = false).
  { intros k Hk. destruct (Qle_bool _ q) eqn:Hle; [|reflexivity].
    apply Qle_bool_iff in Hle. rewrite Hq in Hle.
    unfold Qle, inject_Z in Hle. cbn in Hle. lia. }
  unfold chain_at, number_ge.
  now rewrite !Hlow by lia.
Qed.

(** The strict test of line 67 makes no difference: the presentation is
    that of the chain at the number the code converts to. *)
Lemma presentation_of_number v n :
  ToNumber v = Normal n -> getWeatherDetails v = Normal (chain_at n).
Proof.
  intros Hn. rewrite (getWeatherDetails_converted v Hn).
  destruct (strict_equals_number v 0) eqn:Hz; [|reflexivity].
  destruct v as [| |b|[| neg |q]|str|l|f]; try discriminate Hz.
  injection Hn as <-. cbn [strict_equals_number] in Hz.
  now rewrite chain_at_zero.
Qed.

(** X19.  The outcome depends on the conversion of the code to a number
    only: two codes whose conversions agree, be they numbers, strings,
    booleans, [null], arrays or objects, get the same presentation when
    the conversion gives a number and make the function throw the same
    error when the conversion throws; and what the function returns is
    one of the seven presentations. *)
Theorem presentation_by_numeric_value v w :
  ToNumber v = ToNumber w ->
  getWeatherDetails v = getWeatherDetails w /\
  (forall p, getWeatherDetails v = Normal p ->
             In p [clear_sky; partly_cloudy; fog; rain; snow; showers;
                   thunderstorm]).
Proof.
  intros H.
  destruct (ToNumber v) as [n|e] eqn:Hv; symmetry in H.
  - rewrite (presentation_of_number v Hv), (presentation_of_number w H).
    split; [reflexivity|].
    intros p [= <-]. apply chain_at_in_table.
  - rewrite (getWeatherDetails_thrown v Hv), (getWeatherDetails_thrown w H).
    split; [reflexivity | discriminate].
Qed.

(** X20.  A code that converts to NaN ([undefined] for one, which is what
    a missing [weather_code] gives) or to an infinity is shown as clear
    sky. *)
Theorem non_number_code_is_clear_sky v :
  ToNumber v = Normal NaN \/
  (exists negative, ToNumber v = Normal (Infinity negative)) ->
  getWeatherDetails v = Normal clear_sky.
Proof.
  intros [Hv | [[|] Hv]]; rewrite (presentation_of_number v Hv); reflexivity.
Qed.

(** X21.  Which integer codes get which presentation: each of the six
    named presentations on its range and nowhere else, and clear sky on
    code 0 and on every code outside the six ranges (4-44, 49-50, 68-70,
    78-79 and 83-94 among them). *)
Theorem presentation_preimages (z : Z) :
  (classify z = Normal partly_cloudy <-> 1 <= z <= 3)%Z /\
  (classify z = Normal fog <-> 45 <= z <= 48)%Z /\
  (classify z = Normal rain <-> 51 <= z <= 67)%Z /\
  (classify z = Normal snow <-> 71 <= z <= 77)%Z /\
  (classify z = Normal showers <-> 80 <= z <= 82)%Z /\
  (classify z = Normal thunderstorm <-> 95 <= z <= 99)%Z /\
  (classify z = Normal clear_sky <->
   (z <= 0 \/ 4 <= z <= 44 \/ 49 <= z <= 50 \/ 68 <= z <= 70
    \/ 78 <= z <= 79 \/ 83 <= z <= 94 \/ 100 <= z)%Z).
Proof.
  rewrite classify_chain. unfold chain.
  pose proof (code_intervals z) as Hz.
  repeat (destruct Hz as [Hz | Hz]); settle_comparisons; cbn [andb].
  all: repeat match goal with |- _ /\ _ => split end.
  all: split; intros H;
       first [ reflexivity | lia | exfalso; vm_compute in H; discriminate H ].
Qed.

End Codes.

(** ** The further properties at work *)

(** X3 on the lookup of 'sao paulo'. *)
Lemma requests_only_open_meteo_witness :
  In (geocoding_url (lit "sao%20paulo"))
     (requests (after (E := example_engine) sao_paulo_network
                  (fresh (typed (lit "sao paulo"))))) /\
  (starts_with geocoding_api (geocoding_url (lit "sao%20paulo")) = true \/
   starts_with forecast_api (geocoding_url (lit "sao%20paulo")) = true).
Proof.
  assert (Hin : In (geocoding_url (lit "sao%20paulo"))
                   (requests (after (E := example_engine) sao_paulo_network
                                (fresh (typed (lit "sao paulo")))))).
  { vm_compute. left. reflexivity. }
  split.
  - exact Hin.
  - exact (@requests_only_open_meteo example_engine sao_paulo_network
             (typed (lit "sao paulo")) (geocoding_url (lit "sao%20paulo")) Hin).
Defined.

(** X4 on the lookup of 'sao paulo'. *)
Lemma geocoding_name_is_escaped_witness :
  code_units (city (typed (lit "sao paulo"))) = true /\
  exists q, geocoding_url (lit "sao%20paulo") = geocoding_url q
            /\ forallb is_uri_safe q = true.
Proof.
  assert (Hcu : code_units (city (typed (lit "sao paulo"))) = true)
    by (vm_compute; reflexivity).
  split.
  - exact Hcu.
  - refine (proj1 (@geocoding_name_is_escaped example_engine sao_paulo_network
                     (typed (lit "sao paulo"))
                     (geocoding_url (lit "sao%20paulo")) Hcu _)).
    vm_compute. reflexivity.
Defined.

(** X5 on the text 'São Paulo'. *)
Lemma text_without_surrogates_is_sent_witness :
  blank (city (typed (lit "São Paulo"))) = false /\
  exists q rest,
    encodeURIComponent (E := example_engine) (city (typed (lit "São Paulo")))
    = Normal q /\
    requests (after (E := example_engine) offline
                (fresh (typed (lit "São Paulo"))))
    = geocoding_url q :: rest.
Proof.
  assert (Hb : blank (city (typed (lit "São Paulo"))) = false)
    by (vm_compute; reflexivity).
  split.
  - exact Hb.
  - refine (@text_without_surrogates_is_sent example_engine offline
              (typed (lit "São Paulo")) Hb _).
    vm_compute. reflexivity.
Defined.


(** X10 after a lookup with the network down and silent. *)
Lemma stored_error_never_empty_witness :
  reachable (E := example_engine)
    (ui (after (E := example_engine) offline_silent
           (fresh (typed (lit "Lisboa"))))) /\
  error (ui (after (E := example_engine) offline_silent
               (fresh (typed (lit "Lisboa"))))) <> Some [].
Proof.
  assert (Hr : reachable (E := example_engine)
                 (ui (after (E := example_engine) offline_silent
                        (fresh (typed (lit "Lisboa"))))))
    by exact (reach_lookup offline_silent
                (reach_edit (lit "Lisboa") reach_initial)).
  split.
  - exact Hr.
  - exact (proj1 (@stored_error_never_empty example_engine _ Hr)).
Defined.

(** X11 on the lookup of 'sao paulo'. *)
Lemma reading_provenance_witness :
  weatherData (ui (after (E := example_engine) sao_paulo_network
                     (fresh (typed (lit "sao paulo")))))
  = Some sao_paulo_reading /\
  exists q, encodeURIComponent (E := example_engine)
              (city (typed (lit "sao paulo"))) = Normal q.
Proof.
  assert (Hw : weatherData (ui (after (E := example_engine) sao_paulo_network
                                  (fresh (typed (lit "sao paulo")))))
               = Some sao_paulo_reading)
    by (vm_compute; reflexivity).
  split.
  - exact Hw.
  - destruct (@reading_provenance example_engine sao_paulo_network
                (typed (lit "sao paulo")) sao_paulo_reading)
      as (q & _ & _ & _ & _ & _ & _ & _ & Hq & _).
    + vm_compute. reflexivity.
    + exact Hw.
    + exists q. exact Hq.
Defined.

(** X12 on the state the lookup of 'sao paulo' leaves. *)
Lemma stored_temperature_integral_witness :
  reachable (E := example_engine)
    (ui (after (E := example_engine) sao_paulo_network
           (fresh (typed (lit "sao paulo"))))) /\
  integral (Reading.temp sao_paulo_reading).
Proof.
  assert (Hr : reachable (E := example_engine)
                 (ui (after (E := example_engine) sao_paulo_network
                        (fresh (typed (lit "sao paulo"))))))
    by exact (reach_lookup sao_paulo_network
                (reach_edit (lit "sao paulo") reach_initial)).
  split.
  - exact Hr.
  - refine (@stored_temperature_integral example_engine _ sao_paulo_reading Hr _).
    vm_compute. reflexivity.
Defined.




(** X17 after a lookup of 'Lisboa' with the network down. *)
Lemma screen_after_lookup_witness :
  blank (city (typed (lit "Lisboa"))) = false /\
  attempt (E := example_engine) offline (fresh (typed (lit "Lisboa")))
  = Throw (TypeError (lit "Network request failed")) /\
  render (E := example_engine)
    (ui (after (E := example_engine) offline (fresh (typed (lit "Lisboa")))))
  = Normal (mkScreen (lit "Lisboa") false MagnifyIcon
              (Some (lit "Network request failed")) None true).
Proof.
  assert (Hb : blank (city (typed (lit "Lisboa"))) = false)
    by (vm_compute; reflexivity).
  assert (Ha : attempt (E := example_engine) offline (fresh (typed (lit "Lisboa")))
               = Throw (TypeError (lit "Network request failed")))
    by (vm_compute; reflexivity).
  pose proof (@screen_after_lookup example_engine offline
                (typed (lit "Lisboa")) Hb) as H.
  rewrite Ha in H.
  repeat apply conj.
  - exact Hb.
  - exact Ha.
  - rewrite H. vm_compute. reflexivity.
Defined.

(** X18 after the two lookups that overlapped. *)
Lemma screen_between_lookups_witness :
  reachable (E := example_engine)
    (mkState (lit "Atlantis") (Some sao_paulo_reading) false
       (Some (lit "Cidade não encontrada."))) /\
  exists screen,
    render (E := example_engine)
      (mkState (lit "Atlantis") (Some sao_paulo_reading) false
         (Some (lit "Cidade não encontrada."))) = Normal screen /\
    button_disabled screen = false /\
    errorContainer screen = Some (lit "Cidade não encontrada.") /\
    resultCard screen <> None.
Proof.
  assert (Hr : reachable (E := example_engine)
                 (mkState (lit "Atlantis") (Some sao_paulo_reading) false
                    (Some (lit "Cidade não encontrada.")))).
  { exists overlapping. split; vm_compute; reflexivity. }
  split; [exact Hr|].
  pose proof (@screen_between_lookups example_engine _ Hr) as H.
  destruct (render (E := example_engine)
              (mkState (lit "Atlantis") (Some sao_paulo_reading) false
                 (Some (lit "Cidade não encontrada.")))) as [screen|e] eqn:Hs.
  - destruct H as (Hbutton & _ & Hbanner & Hcard & _).
    exists screen. repeat apply conj.
    + reflexivity.
    + exact Hbutton.
    + exact Hbanner.
    + intros Hnone. apply Hcard in Hnone. discriminate Hnone.
  - vm_compute in Hs. discriminate Hs.
Defined.

(** X20 at [undefined]. *)
Lemma non_number_code_is_clear_sky_witness :
  ToNumber (E := example_engine) JUndefined = Normal NaN /\
  getWeatherDetails (E := example_engine) JUndefined = Normal clear_sky.
Proof.
  split.
  - reflexivity.
  - refine (@non_number_code_is_clear_sky example_engine JUndefined _).
    left. reflexivity.
Defined.

(** X19 at [null] and [false], which both convert to 0. *)
Lemma presentation_by_numeric_value_witness :
  ToNumber (E := example_engine) JNull = ToNumber (E := example_engine) (JBool false) /\
  getWeatherDetails (E := example_engine) JNull
  = getWeatherDetails (E := example_engine) (JBool false).
Proof.
  split.
  - reflexivity.
  - exact (proj1 (@presentation_by_numeric_value example_engine JNull
                    (JBool false) eq_refl)).
Defined.
